(** * Danki Financial Feasibility Simulator: the calculation engine

    A shallow embedding of [perform_calculations] (src/app.py, lines 137-223)
    and of the two rate tables it reads (lines 11-24).

    Python computes on binary64 floats.  The engine is therefore written once,
    over an interface [Number] of the arithmetic it uses, and instantiated
    twice:
    - at [Q], the exact rational arithmetic in which the general properties
      are stated and proved ([==] is equality of rationals);
    - at [float], Rocq's primitive binary64 floats, on which the engine is
      evaluated bit for bit at concrete inputs, and on which the statements
      about which calls return are made.

    The numeric arguments of a call are values of the arithmetic: numbers.
    What Python does with an argument that is not a float (an int beyond the
    range of the floats, a None) is described at [Number_float] and is not
    part of the model. *)

From Stdlib Require Import ZArith QArith Qfield Lqa List String Bool Lia.
From Stdlib Require Import PrimFloat Uint63.
Import ListNotations.
Local Open Scope string_scope.

(** ** Python exceptions and the error monad *)

Inductive exn : Type :=
| KeyError (key : string)
| ZeroDivisionError.

Inductive result (T : Type) : Type :=
| Ok (v : T)
| Raise (e : exn).
Arguments Ok {T} v.
Arguments Raise {T} e.

Definition bind {T U : Type} (c : result T) (k : T -> result U) : result U :=
  match c with
  | Ok v => k v
  | Raise e => Raise e
  end.

Notation "x <- c ;; k" := (bind c (fun x => k))
  (at level 61, c at next level, right associativity).

(** ** The arithmetic the engine uses *)

Class Number (A : Type) : Type := {
  of_Z : Z -> A;          (* an int literal or int value, converted *)
  lit : Q -> A;           (* a decimal literal of the source text *)
  add : A -> A -> A;
  sub : A -> A -> A;
  mul : A -> A -> A;
  quot : A -> A -> A;     (* the quotient, for a divisor that is not zero *)
  neg : A -> A;
  ltb : A -> A -> bool;
  is_zero : A -> bool
}.

Declare Scope num_scope.
Delimit Scope num_scope with num.
Infix "+" := add : num_scope.
Infix "-" := sub : num_scope.
Infix "*" := mul : num_scope.
Notation "- x" := (neg x) : num_scope.
Infix "<?" := ltb : num_scope.

(** Python's [x / y]: raises ZeroDivisionError when [y] is zero. *)
Definition div {A : Type} `{Number A} (x y : A) : result A :=
  if is_zero y then Raise ZeroDivisionError else Ok (quot x y).

(** [d[key]] on a dict: raises KeyError when the key is absent. *)
Fixpoint dict_get {V : Type} (d : list (string * V)) (key : string) : result V :=
  match d with
  | [] => Raise (KeyError key)
  | (k, v) :: d' => if String.eqb k key then Ok v else dict_get d' key
  end.

(** Exact rationals. *)
Definition Qltb (x y : Q) : bool := negb (Qle_bool y x).

#[export] Instance Number_Q : Number Q := {|
  of_Z := inject_Z;
  lit := fun q => q;
  add := Qplus;
  sub := Qminus;
  mul := Qmult;
  quot := Qdiv;
  neg := Qopp;
  ltb := Qltb;
  is_zero := fun q => Qeq_bool q 0
|}.

(** Binary64.  A decimal literal [n/d] with small [n] and [d] is the correctly
    rounded quotient of two exactly represented integers, that is the double
    nearest to the literal, as Python reads it.

    At this instance a call passes Python floats as numeric arguments.  The
    int literals of the source (0, 1, 5 and 12) are taken as the floats of the
    same value, to which Python converts them where they meet a float.  What
    is left of the difference is the sign of a zero: [- 0] is the int 0 in
    Python and [-0.0] here, two equal numbers (the 'Tax' of a year without
    profit, the opening cash of a null investment).

    An int passed as an argument is outside this instance.  Python computes
    on ints exactly until they meet a float and converts them there: for an
    int of magnitude up to 2^53 the conversion is exact, and for an int too
    large for a float it raises OverflowError (lines 147 to 149, and line 177
    for the investment).  A None passed for a numeric argument other
    than the investment raises TypeError (lines 148 and 149).  Neither error
    has a counterpart here, which is why the statements that a call returns
    are statements about float arguments.  On floats Python's [+], [-] and
    [*] never raise (an overflow gives an infinity) and [/] raises on a zero
    divisor only. *)
Definition float_of_Z (z : Z) : float :=
  match z with
  | Z0 => PrimFloat.zero
  | Zpos _ => PrimFloat.of_uint63 (Uint63.of_Z z)
  | Zneg p => PrimFloat.opp (PrimFloat.of_uint63 (Uint63.of_Z (Zpos p)))
  end.

#[export] Instance Number_float : Number float := {|
  of_Z := float_of_Z;
  lit := fun q => PrimFloat.div (float_of_Z (Qnum q)) (float_of_Z (Zpos (Qden q)));
  add := PrimFloat.add;
  sub := PrimFloat.sub;
  mul := PrimFloat.mul;
  quot := PrimFloat.div;
  neg := PrimFloat.opp;
  ltb := PrimFloat.ltb;
  is_zero := fun x => PrimFloat.eqb x PrimFloat.zero
|}.

(** ** Rate tables (src/app.py, lines 11-24) *)

Record Sector (A : Type) : Type := {
  margin : A;
  stock_need : A;
  sector_label : string
}.
Arguments margin {A} _.
Arguments stock_need {A} _.
Arguments sector_label {A} _.

Record TaxZone (A : Type) : Type := {
  zone_label : string;
  salary_tax : A;
  corp_tax : A
}.
Arguments zone_label {A} _.
Arguments salary_tax {A} _.
Arguments corp_tax {A} _.

(** ** Results *)

(** One entry of [graph_data]: [{'name': .., 'profit': .., 'cash': ..}]. *)
Record GraphEntry (A : Type) : Type := {
  name : string;
  profit : list A;
  cash : list A
}.
Arguments name {A} _.
Arguments profit {A} _.
Arguments cash {A} _.

(** One row of [table_rows], the rows of the data frame. *)
Record TableRow (A : Type) : Type := {
  Year : string;
  Turnover : A;
  COGS : A;
  Gross_Margin : A;
  Personnel : A;
  Rent_Charges : A;
  EBITDA : A;
  Amortization : A;
  EBIT : A;
  Tax : A;
  Net_Profit : A;
  Cash_Position : A;
  Net_Assets : A
}.
Arguments Year {A} _.
Arguments Turnover {A} _.
Arguments COGS {A} _.
Arguments Gross_Margin {A} _.
Arguments Personnel {A} _.
Arguments Rent_Charges {A} _.
Arguments EBITDA {A} _.
Arguments Amortization {A} _.
Arguments EBIT {A} _.
Arguments Tax {A} _.
Arguments Net_Profit {A} _.
Arguments Cash_Position {A} _.
Arguments Net_Assets {A} _.

(** The returned tuple
    [(yearly_breakeven_turnover, corp_tax_rate, graph_data, df_table)]. *)
Record Output (A : Type) : Type := {
  yearly_breakeven_turnover : A;
  corp_tax_rate : A;
  graph_data : list (GraphEntry A);
  df_table : list (TableRow A)
}.
Arguments yearly_breakeven_turnover {A} _.
Arguments corp_tax_rate {A} _.
Arguments graph_data {A} _.
Arguments df_table {A} _.

(** ** The engine (src/app.py, lines 137-223) *)

Section Engine.

Context {A : Type} `{Number A}.
Local Open Scope num_scope.

(** Lines 11-15. *)
Definition SECTOR_RATIOS : list (string * Sector A) :=
  [ ("retail",
     {| margin := lit 0.40; stock_need := lit 0.15; sector_label := "Retail (Store)" |});
    ("services",
     {| margin := lit 0.95; stock_need := lit 0.0; sector_label := "Services (Consulting)" |});
    ("industry",
     {| margin := lit 0.50; stock_need := lit 0.20;
        sector_label := "Industry (Manufacturing)" |}) ].

(** Lines 18-24. *)
Definition TAX_ZONES : list (string * TaxZone A) :=
  [ ("eu", {| zone_label := "Europe (France/Germany/Italy)";
              salary_tax := lit 0.85; corp_tax := lit 0.25 |});
    ("us", {| zone_label := "North America (USA/Canada)";
              salary_tax := lit 0.25; corp_tax := lit 0.21 |});
    ("asia", {| zone_label := "Asia (SG/HK/Japan)";
                salary_tax := lit 0.20; corp_tax := lit 0.17 |});
    ("latam", {| zone_label := "South America (Brazil)";
                 salary_tax := lit 0.60; corp_tax := lit 0.34 |});
    ("afr", {| zone_label := "Africa (Nigeria/SA)";
               salary_tax := lit 0.15; corp_tax := lit 0.30 |}) ].

(** Line 156; a dict keeps the order of insertion. *)
Definition scenarios : list (string * A) :=
  [ ("Stagnation", lit 1.0); ("Growth (+5%)", lit 1.05); ("Recession (-5%)", lit 0.95) ].

(** Line 157. *)
Definition years : list string := [ "Year 1"; "Year 2"; "Year 3" ].

(** *** Costs (lines 144-150) *)

Record Costs : Type := {
  salary_multiplier : A;
  annual_amortization : A;
  total_salary_cost_monthly : A;
  rent_monthly : A;
  total_yearly_fixed_costs : A
}.

(** The divisor of line 147 is the literal 5, never zero: on numbers the
    division cannot raise. *)
Definition costs (salary_tax_rate investment owner_salary rent nb_emp emp_salary : A)
  : Costs :=
  let salary_multiplier := of_Z 1 + salary_tax_rate in
  let annual_amortization := quot investment (of_Z 5) in
  let total_salary_cost_monthly :=
    (owner_salary * salary_multiplier) + (nb_emp * emp_salary * salary_multiplier) in
  let rent_monthly := rent * lit 1.2 in
  let total_yearly_fixed_costs :=
    (total_salary_cost_monthly + rent_monthly) * of_Z 12 + annual_amortization in
  {| salary_multiplier := salary_multiplier;
     annual_amortization := annual_amortization;
     total_salary_cost_monthly := total_salary_cost_monthly;
     rent_monthly := rent_monthly;
     total_yearly_fixed_costs := total_yearly_fixed_costs |}.

(** *** Part A: one scenario (lines 163-182) *)

Section Projection.

Variables (margin_ratio corp_tax_rate0 investment : A) (c : Costs).

(** The variables assigned by one pass through the body of the inner loop
    (lines 168-176). *)
Record YearLocals : Type := {
  y_curr_turnover : A;
  y_gross_margin : A;
  y_ebit : A;
  y_tax : A;
  y_net_profit : A;
  y_cash_flow_year : A
}.

Definition scenario_body (rate : A) (i : nat) (curr_turnover : A) : YearLocals :=
  let curr_turnover := if (0 <? i)%nat then curr_turnover * rate else curr_turnover in
  let gross_margin := curr_turnover * margin_ratio in
  let ebit := gross_margin - total_yearly_fixed_costs c in
  let tax := if of_Z 0 <? ebit then ebit * corp_tax_rate0 else of_Z 0 in
  let net_profit := ebit - tax in
  let cash_flow_year := net_profit + annual_amortization c in
  {| y_curr_turnover := curr_turnover;
     y_gross_margin := gross_margin;
     y_ebit := ebit;
     y_tax := tax;
     y_net_profit := net_profit;
     y_cash_flow_year := cash_flow_year |}.

(** The variables that live across the passes of the inner loop. *)
Record ScenarioState : Type := {
  curr_turnover : A;
  cumulative_cash : A;
  p_list : list A;
  cash_list : list A
}.

Definition scenario_step (rate : A) (st : ScenarioState) (i : nat) : ScenarioState :=
  let l := scenario_body rate i (curr_turnover st) in
  let cumulative_cash := cumulative_cash st + y_cash_flow_year l in
  {| curr_turnover := y_curr_turnover l;
     cumulative_cash := cumulative_cash;
     p_list := p_list st ++ [y_net_profit l];
     cash_list := cash_list st ++ [cumulative_cash] |}.

(** Lines 163-182: [for i in range(3)] from the state set up in lines 163-165. *)
Definition run_scenario (base_turnover : A) (scenario : string * A) : GraphEntry A :=
  let '(name, rate) := scenario in
  let st0 := {| curr_turnover := base_turnover;
                cumulative_cash := - investment;
                p_list := [];
                cash_list := [] |} in
  let st := fold_left (scenario_step rate) (seq 0 3) st0 in
  {| name := name; profit := p_list st; cash := cash_list st |}.

(** The locals of the successive passes, for the statements about values the
    loop computes and does not return (turnover, EBIT, tax). *)
Fixpoint scenario_trace (rate : A) (passes : list nat) (curr_turnover : A)
  : list YearLocals :=
  match passes with
  | [] => []
  | i :: passes' =>
      let l := scenario_body rate i curr_turnover in
      l :: scenario_trace rate passes' (y_curr_turnover l)
  end.

(** *** Part B: the detailed table (lines 186-219) *)

Record TableState : Type := {
  t_cumulative_cash : A;
  net_fixed_assets : A;
  table_rows : list (TableRow A)
}.

Definition table_step (curr_turnover : A) (st : TableState) (i : nat) : TableState :=
  let cogs := curr_turnover * (of_Z 1 - margin_ratio) in
  let gross_margin := curr_turnover * margin_ratio in
  let personnel := total_salary_cost_monthly c * of_Z 12 in
  let ext_charges := rent_monthly c * of_Z 12 in
  let ebitda := gross_margin - personnel - ext_charges in
  let ebit := ebitda - annual_amortization c in
  let tax := if of_Z 0 <? ebit then ebit * corp_tax_rate0 else of_Z 0 in
  let net_profit := ebit - tax in
  let cumulative_cash := t_cumulative_cash st + (net_profit + annual_amortization c) in
  let net_fixed_assets := net_fixed_assets st - annual_amortization c in
  let net_fixed_assets :=
    if net_fixed_assets <? of_Z 0 then of_Z 0 else net_fixed_assets in
  {| t_cumulative_cash := cumulative_cash;
     net_fixed_assets := net_fixed_assets;
     table_rows := table_rows st ++
       [ {| Year := nth i years "";
            Turnover := curr_turnover;
            COGS := - cogs;
            Gross_Margin := gross_margin;
            Personnel := - personnel;
            Rent_Charges := - ext_charges;
            EBITDA := ebitda;
            Amortization := - annual_amortization c;
            EBIT := ebit;
            Tax := - tax;
            Net_Profit := net_profit;
            Cash_Position := cumulative_cash;
            Net_Assets := net_fixed_assets |} ] |}.

Definition build_table (base_turnover : A) : list (TableRow A) :=
  let st0 := {| t_cumulative_cash := - investment;
                net_fixed_assets := investment;
                table_rows := [] |} in
  table_rows (fold_left (table_step base_turnover) (seq 0 3) st0).

End Projection.

(** *** The whole function *)

(** Line 138: [if investment is None: investment = 0]. *)
Definition default_investment (investment : option A) : A :=
  match investment with
  | None => of_Z 0
  | Some v => v
  end.

(** What lines 138-153 leave in scope for the two parts that follow. *)
Record Setup : Type := {
  s_investment : A;
  s_margin_ratio : A;
  s_corp_tax_rate : A;
  s_costs : Costs;
  s_yearly_breakeven_turnover : A
}.

(** Lines 138-153, with the two module-level tables as parameters.  With
    floats for numeric arguments the lookups of lines 141-143 and the division
    of line 153 are the only places that can raise; the errors Python raises
    on other arguments (see [Number_float]) are not modelled. *)
Definition setup
    (sector_ratios : list (string * Sector A)) (tax_zones : list (string * TaxZone A))
    (region industry : string) (investment : option A)
    (owner_salary rent nb_emp emp_salary : A) : result Setup :=
  let investment := default_investment investment in
  sector <- dict_get sector_ratios industry ;;
  let margin_ratio := margin sector in
  zone <- dict_get tax_zones region ;;
  let salary_tax_rate := salary_tax zone in
  let corp_tax_rate := corp_tax zone in
  let c := costs salary_tax_rate investment owner_salary rent nb_emp emp_salary in
  yearly_breakeven_turnover <- div (total_yearly_fixed_costs c) margin_ratio ;;
  Ok {| s_investment := investment;
        s_margin_ratio := margin_ratio;
        s_corp_tax_rate := corp_tax_rate;
        s_costs := c;
        s_yearly_breakeven_turnover := yearly_breakeven_turnover |}.

(** Lines 156-223. *)
Definition project (s : Setup) : Output A :=
  let base_turnover := s_yearly_breakeven_turnover s in
  let graph_data :=
    map (run_scenario (s_margin_ratio s) (s_corp_tax_rate s) (s_investment s) (s_costs s)
           base_turnover) scenarios in
  let df_table :=
    build_table (s_margin_ratio s) (s_corp_tax_rate s) (s_investment s) (s_costs s)
      base_turnover in
  {| yearly_breakeven_turnover := s_yearly_breakeven_turnover s;
     corp_tax_rate := s_corp_tax_rate s;
     graph_data := graph_data;
     df_table := df_table |}.

Definition perform_calculations_in
    (sector_ratios : list (string * Sector A)) (tax_zones : list (string * TaxZone A))
    (region industry : string) (investment : option A)
    (owner_salary rent nb_emp emp_salary : A) : result (Output A) :=
  s <- setup sector_ratios tax_zones region industry investment
         owner_salary rent nb_emp emp_salary ;;
  Ok (project s).

Definition perform_calculations :=
  perform_calculations_in SECTOR_RATIOS TAX_ZONES.

(** The locals of every pass of the inner loop, per scenario, for the same
    request: what [perform_calculations] computes on the way to [graph_data]. *)
Definition scenario_traces (s : Setup) : list (string * list YearLocals) :=
  map (fun scenario : string * A =>
         (fst scenario,
          scenario_trace (s_margin_ratio s) (s_corp_tax_rate s) (s_costs s)
            (snd scenario) (seq 0 3) (s_yearly_breakeven_turnover s)))
      scenarios.

(** The running totals of [flows] from [start]: how line 177 accumulates the
    cash flow of each year into [cumulative_cash]. *)
Fixpoint running_total (start : A) (flows : list A) : list A :=
  match flows with
  | [] => []
  | f :: flows' => (start + f) :: running_total (start + f) flows'
  end.

(** The entry of [graph_data] that a scenario's trace amounts to: its net
    profits, and the running total of its cash flows from [- investment]
    (line 165). *)
Definition graph_entry_of_trace (investment : A) (t : string * list YearLocals)
  : GraphEntry A :=
  {| name := fst t;
     profit := map y_net_profit (snd t);
     cash := running_total (- investment) (map y_cash_flow_year (snd t)) |}.

End Engine.

Arguments Costs A : clear implicits.
Arguments Setup A : clear implicits.
Arguments YearLocals A : clear implicits.
Arguments ScenarioState A : clear implicits.
Arguments TableState A : clear implicits.

(** ** The two paths side by side *)

(** The state of the inner loop of a scenario agrees with the state of the
    loop of the detailed table: same turnover as the table uses, same
    cumulative cash, and so far the same net profits and cash positions, as
    rationals. *)
Definition paths_agree (base_turnover : Q)
    (sst : ScenarioState Q) (tst : TableState Q) : Prop :=
  (curr_turnover sst == base_turnover)%Q /\
  (cumulative_cash sst == t_cumulative_cash tst)%Q /\
  Forall2 Qeq (p_list sst) (map Net_Profit (table_rows tst)) /\
  Forall2 Qeq (cash_list sst) (map Cash_Position (table_rows tst)).

(** The fixed costs are the sum of the parts the table subtracts one by one
    (line 150 against lines 194-197). *)
Definition costs_consistent (c : Costs Q) : Prop :=
  (total_yearly_fixed_costs c
   == (total_salary_cost_monthly c + rent_monthly c) * 12 + annual_amortization c)%Q.

(** ** The dashboard around the engine (src/app.py, lines 40-51 and 226-318)

    The callbacks hand the engine's results to Dash, Plotly and pandas.  What
    is modelled is what the source itself decides: which values the dropdowns
    offer, what is looked up in the colour tables, which lists go into which
    trace, how the table is turned and labelled.  Rendering (HTML, figures,
    CSV text) is the libraries' and is left out; Python's number formatting
    ([f"{x:,.0f}"], [f"{x:.1f}"]) is a parameter. *)

(** An option of a dropdown: [{'label': .., 'value': ..}]. *)
Record DropdownOption : Type := {
  option_label : string;
  option_value : string
}.

(** The exceptions a callback can end with: the engine's, or the ValueError
    pandas raises when [df.columns] is assigned a list of another length. *)
Inductive ui_exn : Type :=
| Exn (e : exn)
| ValueError.

Inductive outcome (T : Type) : Type :=
| Done (v : T)
| Failed (e : ui_exn).
Arguments Done {T} v.
Arguments Failed {T} e.

Definition outcome_of {T : Type} (r : result T) : outcome T :=
  match r with
  | Ok v => Done v
  | Raise e => Failed (Exn e)
  end.

Definition and_then {T U : Type} (c : outcome T) (k : T -> outcome U) : outcome U :=
  match c with
  | Done v => k v
  | Failed e => Failed e
  end.

(** [d.get(key, default)]. *)
Definition dict_get_default {V : Type} (d : list (string * V)) (key : string) (default : V)
  : V :=
  match dict_get d key with
  | Ok v => v
  | Raise _ => default
  end.

(** [go.Bar(x=.., y=.., name=.., marker_color=..)] (line 256). *)
Record BarTrace (A : Type) : Type := {
  bar_x : list string;
  bar_y : list A;
  bar_name : string;
  bar_marker_color : string
}.
Arguments bar_x {A} _.
Arguments bar_y {A} _.
Arguments bar_name {A} _.
Arguments bar_marker_color {A} _.

(** [go.Scatter(x=.., y=.., mode=.., name=.., line=dict(color=.., width=3))]
    (lines 271-272). *)
Record ScatterTrace (A : Type) : Type := {
  scatter_x : list string;
  scatter_y : list A;
  scatter_mode : string;
  scatter_name : string;
  scatter_line_color : string;
  scatter_line_width : Z
}.
Arguments scatter_x {A} _.
Arguments scatter_y {A} _.
Arguments scatter_mode {A} _.
Arguments scatter_name {A} _.
Arguments scatter_line_color {A} _.
Arguments scatter_line_width {A} _.

(** A data frame turned on its side: one line per metric, one column per
    value of 'Year' ([df.set_index('Year').T]). *)
Record Frame (V : Type) : Type := {
  frame_columns : list string;
  frame_index : list string;
  frame_values : list (list V)
}.
Arguments frame_columns {V} _.
Arguments frame_index {V} _.
Arguments frame_values {V} _.

(** The table shown in the third tab: the header set at line 284 and, per
    metric, its name followed by the formatted values. *)
Record DisplayTable : Type := {
  display_header : list string;
  display_body : list (list string)
}.

(** What [update_dashboard] puts into 'tab-content'. *)
Inductive Content (A : Type) : Type :=
| EmptyDiv
| BarFigure (title : string) (traces : list (BarTrace A))
| ScatterFigure (title : string) (traces : list (ScatterTrace A))
| StatementView (heading : string) (table : DisplayTable).
Arguments EmptyDiv {A}.
Arguments BarFigure {A} title traces.
Arguments ScatterFigure {A} title traces.
Arguments StatementView {A} heading table.

Section Dashboard.

Context {A : Type} `{Number A}.
Local Open Scope num_scope.

(** Lines 42 and 49: the options are the keys of the tables. *)
Definition region_options : list DropdownOption :=
  map (fun kv : string * TaxZone A =>
         {| option_label := zone_label (snd kv); option_value := fst kv |}) TAX_ZONES.

Definition industry_options : list DropdownOption :=
  map (fun kv : string * Sector A =>
         {| option_label := sector_label (snd kv); option_value := fst kv |}) SECTOR_RATIOS.

(** Lines 43 and 50: the values selected when the page opens. *)
Definition default_region : string := "eu".
Definition default_industry : string := "retail".

(** Line 253. *)
Definition colors : list (string * string) :=
  [ ("Stagnation", "#33FFA2"); ("Growth (+5%)", "#FF33FF"); ("Recession (-5%)", "#737373") ].

(** Lines 265-269. *)
Definition line_colors : list (string * string) :=
  [ ("Stagnation", "#33FFA2"); ("Growth (+5%)", "#FF33FF"); ("Recession (-5%)", "#737373") ].

(** Lines 255-256: one bar trace per scenario; [colors[d['name']]] raises
    KeyError on a name that has no colour. *)
Fixpoint bar_traces (graph_data : list (GraphEntry A)) : result (list (BarTrace A)) :=
  match graph_data with
  | [] => Ok []
  | d :: rest =>
      color <- dict_get colors (name d) ;;
      traces <- bar_traces rest ;;
      Ok ({| bar_x := years; bar_y := profit d; bar_name := name d;
             bar_marker_color := color |} :: traces)
  end.

(** Lines 270-272: one line trace per scenario; a name without a colour is
    drawn grey. *)
Definition scatter_traces (graph_data : list (GraphEntry A)) : list (ScatterTrace A) :=
  map (fun d => {| scatter_x := years; scatter_y := cash d;
                   scatter_mode := "lines+markers"; scatter_name := name d;
                   scatter_line_color := dict_get_default line_colors (name d) "grey";
                   scatter_line_width := 3 |}) graph_data.

(** The columns of the data frame other than 'Year', in the order of the keys
    of the rows (lines 205-219). *)
Definition metrics : list (string * (TableRow A -> A)) :=
  [ ("Turnover", Turnover); ("COGS", COGS); ("Gross Margin", Gross_Margin);
    ("Personnel", Personnel); ("Rent/Charges", Rent_Charges); ("EBITDA", EBITDA);
    ("Amortization", Amortization); ("EBIT", EBIT); ("Tax", Tax);
    ("Net Profit", Net_Profit); ("Cash Position", Cash_Position);
    ("Net Assets", Net_Assets) ].

(** [df.set_index('Year').T] (lines 283 and 317). *)
Definition transpose_by_year (df : list (TableRow A)) : Frame A :=
  {| frame_columns := map Year df;
     frame_index := map fst metrics;
     frame_values := map (fun metric => map (snd metric) df) metrics |}.

Section Formats.

(** [f"€{x:,.0f}"] and [f"{x:.1f}%"]. *)
Variables (format_currency format_percent : A -> string).

(** Lines 283-288: the frame with its index as first column, the columns
    renamed (a ValueError unless there are four of them) and the values of the
    three year columns formatted. *)
Definition display_table (df : list (TableRow A)) : outcome DisplayTable :=
  let turned := transpose_by_year df in
  let header := [ "Metric"; "Year 1"; "Year 2"; "Year 3" ] in
  if (List.length ("index" :: frame_columns turned) =? List.length header)%nat
  then Done {| display_header := header;
               display_body :=
                 map (fun line : string * list A =>
                        fst line :: map format_currency (snd line))
                     (combine (frame_index turned) (frame_values turned)) |}
  else Failed ValueError.

(** Lines 247-295: what goes under the tabs.  It starts as an empty
    [html.Div()] and stays so on a tab that is none of the three. *)
Definition tab_content (active_tab : string) (out : Output A) : outcome (Content A) :=
  if String.eqb active_tab "tab-1" then
    and_then (outcome_of (bar_traces (graph_data out)))
             (fun traces => Done (BarFigure "Net Profit Scenarios" traces))
  else if String.eqb active_tab "tab-2" then
    Done (ScatterFigure "Cash Balance Scenarios" (scatter_traces (graph_data out)))
  else if String.eqb active_tab "tab-3" then
    and_then (display_table (df_table out))
             (fun table => Done (StatementView "Financial Statements (Base Scenario)" table))
  else Done EmptyDiv.

(** Lines 241-297.  [n_clicks] only triggers the callback. *)
Definition update_dashboard (n_clicks : option Z) (active_tab : string)
    (region industry : string) (investment : option A)
    (owner_salary rent nb_emp emp_salary : A)
  : outcome (string * string * Content A) :=
  and_then
    (outcome_of (perform_calculations region industry investment
                   owner_salary rent nb_emp emp_salary))
    (fun out =>
       let be_turnover := yearly_breakeven_turnover out in
       let tax_rate := corp_tax_rate out in
       and_then (tab_content active_tab out)
         (fun content =>
            Done (format_currency be_turnover,
                  format_percent (tax_rate * of_Z 100),
                  content))).

End Formats.

(** Lines 313-318: the frame handed to [to_csv] and the name of the file. *)
Definition download_data (n_clicks : option Z)
    (region industry : string) (investment : option A)
    (owner_salary rent nb_emp emp_salary : A)
  : outcome (Frame A * string) :=
  and_then
    (outcome_of (perform_calculations region industry investment
                   owner_salary rent nb_emp emp_salary))
    (fun out => Done (transpose_by_year (df_table out), "danki_financial_plan.csv")).

End Dashboard.

(** * Properties of the engine *)

Local Open Scope list_scope.

(** ** Whatever the arithmetic *)

Section AnyArithmetic.

Context {A : Type} `{Number A}.

Lemma bind_Ok {T U : Type} (c : result T) (k : T -> result U) (u : U) :
  bind c k = Ok u -> exists t, c = Ok t /\ k t = Ok u.
Proof.
  destruct c as [t|e]; cbn; intros Hk; [exists t; auto | discriminate].
Qed.

Lemma div_Ok (x y q : A) :
  div x y = Ok q <-> is_zero y = false /\ q = quot x y.
Proof.
  unfold div. destruct (is_zero y); split.
  - discriminate.
  - intros [Hz _]; discriminate.
  - intros Hq; injection Hq as <-; auto.
  - intros [_ ->]; reflexivity.
Qed.

(** What a successful [setup] has returned. *)
Lemma setup_Ok sector_ratios tax_zones region industry investment
      owner_salary rent nb_emp emp_salary (s : Setup A) :
  setup sector_ratios tax_zones region industry investment
        owner_salary rent nb_emp emp_salary = Ok s ->
  exists sector zone,
    dict_get sector_ratios industry = Ok sector /\
    dict_get tax_zones region = Ok zone /\
    is_zero (margin sector) = false /\
    s_investment s = default_investment investment /\
    s_margin_ratio s = margin sector /\
    s_corp_tax_rate s = corp_tax zone /\
    s_costs s = costs (salary_tax zone) (default_investment investment)
                      owner_salary rent nb_emp emp_salary /\
    s_yearly_breakeven_turnover s
      = quot (total_yearly_fixed_costs (s_costs s)) (margin sector).
Proof.
  unfold setup. intros Hs.
  apply bind_Ok in Hs as (sector & Hsec & Hs).
  apply bind_Ok in Hs as (zone & Hzone & Hs).
  apply bind_Ok in Hs as (q & Hq & Hs).
  apply div_Ok in Hq as [Hz ->].
  injection Hs as <-. exists sector, zone. cbn. auto 10.
Qed.

(** [setup] succeeds as soon as both keys are found and the margin is not 0. *)
Lemma setup_total sector_ratios tax_zones region industry investment
      owner_salary rent nb_emp emp_salary sector zone :
  dict_get sector_ratios industry = Ok sector ->
  dict_get tax_zones region = Ok zone ->
  is_zero (margin sector) = false ->
  exists s, setup sector_ratios tax_zones region industry investment
                  owner_salary rent nb_emp emp_salary = Ok s.
Proof.
  intros Hsec Hzone Hz. unfold setup. rewrite Hsec, Hzone. cbn [bind].
  unfold div. rewrite Hz. cbn [bind]. eexists; reflexivity.
Qed.

Lemma perform_calculations_in_Ok sector_ratios tax_zones region industry investment
      owner_salary rent nb_emp emp_salary (out : Output A) :
  perform_calculations_in sector_ratios tax_zones region industry investment
        owner_salary rent nb_emp emp_salary = Ok out <->
  exists s, setup sector_ratios tax_zones region industry investment
                  owner_salary rent nb_emp emp_salary = Ok s /\ out = project s.
Proof.
  unfold perform_calculations_in. split.
  - intros Hout. apply bind_Ok in Hout as (s & Hs & Hout).
    injection Hout as <-. eauto.
  - intros (s & -> & ->). reflexivity.
Qed.

(** The loop of lines 167-180 against the trace of its passes. *)
Section Loops.

Variables (margin_ratio corp_tax_rate0 investment : A) (c : Costs A) (rate : A).

Let step := scenario_step margin_ratio corp_tax_rate0 c rate.
Let trace := scenario_trace margin_ratio corp_tax_rate0 c rate.

Lemma scenario_fold_profit (passes : list nat) (st : ScenarioState A) :
  p_list (fold_left step passes st)
  = p_list st ++ map y_net_profit (trace passes (curr_turnover st)).
Proof.
  revert st. induction passes as [|i passes IH]; intros st; cbn.
  - symmetry; apply app_nil_r.
  - rewrite IH. cbn. rewrite <- app_assoc. reflexivity.
Qed.

Lemma scenario_fold_cash (passes : list nat) (st : ScenarioState A) :
  cash_list (fold_left step passes st)
  = cash_list st ++ running_total (cumulative_cash st)
                      (map y_cash_flow_year (trace passes (curr_turnover st))).
Proof.
  revert st. induction passes as [|i passes IH]; intros st; cbn.
  - symmetry; apply app_nil_r.
  - rewrite IH. cbn. rewrite <- app_assoc. reflexivity.
Qed.

Lemma scenario_trace_length (passes : list nat) (t : A) :
  List.length (trace passes t) = List.length passes.
Proof.
  revert t. induction passes as [|i passes IH]; intros t; cbn; [|rewrite IH]; reflexivity.
Qed.

Lemma running_total_length (start : A) (flows : list A) :
  List.length (running_total start flows) = List.length flows.
Proof.
  revert start. induction flows as [|f flows IH]; intros start; cbn; [|rewrite IH];
    reflexivity.
Qed.

(** What [run_scenario] returns, read off the trace. *)
Lemma run_scenario_trace (base_turnover : A) (name0 : string) :
  run_scenario margin_ratio corp_tax_rate0 investment c base_turnover (name0, rate)
  = {| name := name0;
       profit := map y_net_profit (trace (seq 0 3) base_turnover);
       cash := running_total (neg investment)
                 (map y_cash_flow_year (trace (seq 0 3) base_turnover)) |}.
Proof.
  unfold run_scenario. fold step.
  rewrite scenario_fold_profit, scenario_fold_cash. reflexivity.
Qed.

End Loops.

(** [graph_data] is the trace of each scenario, projected. *)
Lemma graph_data_traces (s : Setup A) :
  graph_data (project s)
  = map (graph_entry_of_trace (s_investment s)) (scenario_traces s).
Proof.
  unfold project, scenario_traces; cbn [graph_data].
  rewrite map_map. apply map_ext. intros [name0 rate]. apply run_scenario_trace.
Qed.

(** A property of the loop state that every pass keeps holds at the exit. *)
Lemma fold_left_preserves {S I : Type} (P : S -> Prop) (f : S -> I -> S) :
  (forall s i, P s -> P (f s i)) ->
  forall (l : list I) (s : S), P s -> P (fold_left f l s).
Proof.
  intros Hstep l. induction l as [|i l IH]; intros s Hs; cbn; auto.
Qed.

Section TableLoop.

Variables (margin_ratio corp_tax_rate0 investment : A) (c : Costs A) (base_turnover : A).

Let step := table_step margin_ratio corp_tax_rate0 c base_turnover.

(** Each pass appends one row (line 205). *)
Lemma table_step_rows (st : TableState A) (i : nat) :
  exists row, table_rows (step st i) = table_rows st ++ [row] /\
              Turnover row = base_turnover.
Proof.
  eexists; split; [reflexivity | reflexivity].
Qed.

Lemma table_fold_length (passes : list nat) (st : TableState A) :
  List.length (table_rows (fold_left step passes st))
  = (List.length (table_rows st) + List.length passes)%nat.
Proof.
  revert st. induction passes as [|i passes IH]; intros st; cbn [fold_left List.length].
  - lia.
  - rewrite IH. destruct (table_step_rows st i) as (row & -> & _).
    rewrite length_app. cbn. lia.
Qed.

Lemma build_table_length :
  List.length (build_table margin_ratio corp_tax_rate0 investment c base_turnover) = 3%nat.
Proof.
  unfold build_table. fold step. rewrite table_fold_length. reflexivity.
Qed.

Lemma build_table_turnover :
  Forall (fun row => Turnover row = base_turnover)
         (build_table margin_ratio corp_tax_rate0 investment c base_turnover).
Proof.
  unfold build_table. fold step.
  apply (fold_left_preserves
           (fun st => Forall (fun row => Turnover row = base_turnover) (table_rows st))).
  - intros st i Hst. destruct (table_step_rows st i) as (row & -> & Hrow).
    apply Forall_app; auto.
  - constructor.
Qed.

End TableLoop.

End AnyArithmetic.

(** ** In exact arithmetic *)

Local Open Scope Q_scope.

Lemma Qltb_true (x y : Q) : Qltb x y = true <-> x < y.
Proof.
  unfold Qltb. rewrite negb_true_iff, <- not_true_iff_false, Qle_bool_iff.
  split; [apply Qnot_le_lt | apply Qlt_not_le].
Qed.

Lemma Qltb_false (x y : Q) : Qltb x y = false <-> y <= x.
Proof.
  unfold Qltb. rewrite negb_false_iff. apply Qle_bool_iff.
Qed.

Lemma is_zero_false (x : Q) : is_zero x = false <-> ~ x == 0.
Proof.
  cbn. rewrite <- not_true_iff_false, Qeq_bool_iff. reflexivity.
Qed.

Lemma SECTOR_RATIOS_margin (industry : string) (sector : Sector Q) :
  dict_get SECTOR_RATIOS industry = Ok sector -> 0 < margin sector /\ margin sector <= 1.
Proof.
  cbn [dict_get SECTOR_RATIOS].
  repeat (destruct (String.eqb _ industry);
          [intros Hs; injection Hs as <-; cbn; lra|]).
  discriminate.
Qed.

(** C7: the detailed table has three rows and every one of them carries the
    break-even turnover itself as its 'Turnover': the table path applies no
    growth rate.  This holds whatever the arithmetic, binary64 included. *)
Theorem table_turnover_is_breakeven
    (A : Type) (arithmetic : Number A)
    (region industry : string) (investment : option A)
    (owner_salary rent nb_emp emp_salary : A) (out : Output A) :
  perform_calculations region industry investment owner_salary rent nb_emp emp_salary
    = Ok out ->
  List.length (df_table out) = 3%nat /\
  Forall (fun row => Turnover row = yearly_breakeven_turnover out) (df_table out).
Proof.
  intros Hout. apply perform_calculations_in_Ok in Hout as (s & _ & ->).
  split; [apply build_table_length | apply build_table_turnover].
Qed.

Lemma table_turnover_is_breakeven_witness :
  exists out,
    perform_calculations "eu" "services" (Some 20000) 2000 3000 1 2000 = Ok out /\
    List.length (df_table out) = 3%nat /\
    Forall (fun row => Turnover row = yearly_breakeven_turnover out) (df_table out).
Proof.
  eexists. split; [reflexivity|].
  apply (table_turnover_is_breakeven Q Number_Q
           "eu" "services" (Some 20000) 2000 3000 1 2000).
  reflexivity.
Defined.

(** C1: the worked example of the specification.  With region 'us' and
    industry 'retail' the tables give salaryTax 0.25, corpTax 0.21 and margin
    0.40; for investment 20000, owner salary 2000, rent 3000 and one employee
    paid 2000 the engine computes annualAmortization 4000, monthlySalaryCost
    5000, monthlyRent 3600, yearlyFixedCosts 107200 and the break-even turnover
    107200 / 0.40 = 268000: as rationals, and as binary64 floats without any
    rounding error left in these five values. *)
Theorem concrete_scenario_us_retail :
  (exists zone sector s out,
     dict_get TAX_ZONES "us" = Ok zone /\
     salary_tax zone == 0.25 /\ corp_tax zone == 0.21 /\
     dict_get SECTOR_RATIOS "retail" = Ok sector /\
     margin sector == 0.40 /\
     setup SECTOR_RATIOS TAX_ZONES "us" "retail" (Some 20000) 2000 3000 1 2000 = Ok s /\
     annual_amortization (s_costs s) == 4000 /\
     total_salary_cost_monthly (s_costs s) == 5000 /\
     rent_monthly (s_costs s) == 3600 /\
     total_yearly_fixed_costs (s_costs s) == 107200 /\
     s_yearly_breakeven_turnover s == 107200 / 0.40 /\
     perform_calculations "us" "retail" (Some 20000) 2000 3000 1 2000 = Ok out /\
     yearly_breakeven_turnover out == 268000 /\
     corp_tax_rate out == 0.21) /\
  (exists s out,
     setup SECTOR_RATIOS TAX_ZONES "us" "retail"
           (Some 20000%float) 2000%float 3000%float 1%float 2000%float = Ok s /\
     annual_amortization (s_costs s) = 4000%float /\
     total_salary_cost_monthly (s_costs s) = 5000%float /\
     rent_monthly (s_costs s) = 3600%float /\
     total_yearly_fixed_costs (s_costs s) = 107200%float /\
     perform_calculations "us" "retail"
           (Some 20000%float) 2000%float 3000%float 1%float 2000%float = Ok out /\
     yearly_breakeven_turnover out = 268000%float).
Proof.
  split.
  - do 4 eexists.
    repeat match goal with
           | |- _ /\ _ => split
           | |- _ = Ok _ => reflexivity
           | |- _ == _ => vm_compute; reflexivity
           end.
  - do 2 eexists.
    repeat match goal with
           | |- _ /\ _ => split
           | |- _ = Ok _ => vm_compute; reflexivity
           | |- _ = _ => vm_compute; reflexivity
           end.
Qed.

(** C9: a null investment is replaced by 0 and nothing else depends on it, so
    the call returns what it returns for investment 0, and it does return:
    with both keys in the tables no exception is raised. *)
Theorem null_investment_is_zero
    (region industry : string) (owner_salary rent nb_emp emp_salary : Q)
    (sector : Sector Q) (zone : TaxZone Q) :
  dict_get SECTOR_RATIOS industry = Ok sector ->
  dict_get TAX_ZONES region = Ok zone ->
  perform_calculations region industry None owner_salary rent nb_emp emp_salary
  = perform_calculations region industry (Some 0) owner_salary rent nb_emp emp_salary /\
  exists out,
    perform_calculations region industry None owner_salary rent nb_emp emp_salary = Ok out.
Proof.
  intros Hsector Hzone. split; [reflexivity|].
  destruct (SECTOR_RATIOS_margin industry sector Hsector) as [Hpos _].
  destruct (setup_total SECTOR_RATIOS TAX_ZONES region industry None
              owner_salary rent nb_emp emp_salary sector zone Hsector Hzone) as [s Hs].
  - apply is_zero_false. lra.
  - exists (project s). apply perform_calculations_in_Ok. eauto.
Qed.

Lemma null_investment_is_zero_witness :
  perform_calculations "asia" "industry" None 2500 1200 3 1800
  = perform_calculations "asia" "industry" (Some 0) 2500 1200 3 1800 /\
  exists out, perform_calculations "asia" "industry" None 2500 1200 3 1800 = Ok out.
Proof.
  eapply (null_investment_is_zero "asia" "industry" 2500 1200 3 1800); reflexivity.
Defined.

Lemma TAX_ZONES_rates (region : string) (zone : TaxZone Q) :
  dict_get TAX_ZONES region = Ok zone ->
  0 <= salary_tax zone /\ 0 <= corp_tax zone /\ corp_tax zone <= 1.
Proof.
  cbn [dict_get TAX_ZONES].
  repeat (destruct (String.eqb _ region);
          [intros Hz; injection Hz as <-; cbn; lra|]).
  discriminate.
Qed.

(** The tax of lines 173 and 198 is 0 as soon as EBIT is not positive, and it
    is not negative when the rate is not. *)
Lemma tax_floor_branch (ebit rate : Q) :
  ebit <= 0 -> (if Qltb (inject_Z 0) ebit then ebit * rate else inject_Z 0) = 0.
Proof.
  intros Hle. destruct (Qltb (inject_Z 0) ebit) eqn:Hlt; [|reflexivity].
  apply Qltb_true in Hlt. cbv [inject_Z] in Hlt. lra.
Qed.

Lemma tax_branch_nonneg (ebit rate : Q) :
  0 <= rate -> 0 <= (if Qltb (inject_Z 0) ebit then ebit * rate else inject_Z 0).
Proof.
  intros Hrate. destruct (Qltb (inject_Z 0) ebit) eqn:Hlt.
  - apply Qltb_true in Hlt. cbv [inject_Z] in Hlt.
    apply Qmult_le_0_compat; lra.
  - cbv [inject_Z]. lra.
Qed.

Lemma scenario_trace_tax_floor (m ct : Q) (c : Costs Q) (rate : Q)
      (passes : list nat) (t : Q) :
  0 <= ct ->
  Forall (fun l => (y_ebit l <= 0 -> y_tax l = 0) /\ 0 <= y_tax l)
         (scenario_trace m ct c rate passes t).
Proof.
  intros Hct. revert t. induction passes as [|i passes IH]; intros t; cbn [scenario_trace].
  - constructor.
  - constructor; [|apply IH].
    cbn. split; [apply tax_floor_branch | apply tax_branch_nonneg, Hct].
Qed.

Lemma build_table_tax_floor (m ct inv : Q) (c : Costs Q) (base : Q) :
  0 <= ct ->
  Forall (fun row => (EBIT row <= 0 -> Tax row = 0) /\ Tax row <= 0)
         (build_table m ct inv c base).
Proof.
  intros Hct. unfold build_table.
  apply (fold_left_preserves
           (fun st => Forall (fun row => (EBIT row <= 0 -> Tax row = 0) /\ Tax row <= 0)
                             (table_rows st))).
  - intros st i Hst. cbn [table_step table_rows]. apply Forall_app; split; [assumption|].
    constructor; [|constructor].
    cbn [EBIT Tax]. cbn [neg Number_Q].
    change (@ltb Q Number_Q) with Qltb. change (@of_Z Q Number_Q) with inject_Z.
    change (@mul Q Number_Q) with Qmult.
    split.
    + intros Hle. rewrite (tax_floor_branch _ _ Hle). reflexivity.
    + pose proof (tax_branch_nonneg
                    (sub (sub (sub (base * m) (total_salary_cost_monthly c * inject_Z 12))
                              (rent_monthly c * inject_Z 12))
                         (annual_amortization c)) ct Hct) as Htax.
      cbn [sub Number_Q] in *. lra.
  - constructor.
Qed.

(** C3: in every year of the detailed table and in every year of every
    scenario, a pre-tax profit (EBIT) that is not positive is taxed exactly 0,
    and the tax is never negative ('Tax' in the table is the tax with a minus
    sign).  The scenarios return neither EBIT nor tax: the statement is about
    the locals of the loop, of which [graph_data] is the projection. *)
Theorem tax_floor
    (region industry : string) (investment : option Q)
    (owner_salary rent nb_emp emp_salary : Q) (out : Output Q) :
  perform_calculations region industry investment owner_salary rent nb_emp emp_salary
    = Ok out ->
  Forall (fun row => (EBIT row <= 0 -> Tax row = 0) /\ Tax row <= 0) (df_table out) /\
  exists s,
    setup SECTOR_RATIOS TAX_ZONES region industry investment
          owner_salary rent nb_emp emp_salary = Ok s /\
    graph_data out = map (graph_entry_of_trace (s_investment s)) (scenario_traces s) /\
    Forall (fun scenario =>
              Forall (fun l => (y_ebit l <= 0 -> y_tax l = 0) /\ 0 <= y_tax l)
                     (snd scenario))
           (scenario_traces s).
Proof.
  intros Hout. apply perform_calculations_in_Ok in Hout as (s & Hs & ->).
  pose proof Hs as Hs'.
  apply setup_Ok in Hs' as (sector & zone & _ & Hzone & _ & _ & _ & Hct & _).
  apply TAX_ZONES_rates in Hzone as (_ & Hrate & _). rewrite <- Hct in Hrate.
  split.
  - apply build_table_tax_floor, Hrate.
  - exists s. split; [exact Hs|]. split; [apply graph_data_traces|].
    unfold scenario_traces. apply Forall_map. apply Forall_forall.
    intros scenario _. cbn [snd]. apply scenario_trace_tax_floor, Hrate.
Qed.

Lemma tax_floor_witness :
  exists out,
    perform_calculations "latam" "retail" (Some 50000) 3000 1500 2 1200 = Ok out /\
    Forall (fun row => (EBIT row <= 0 -> Tax row = 0) /\ Tax row <= 0) (df_table out) /\
    exists s,
      setup SECTOR_RATIOS TAX_ZONES "latam" "retail" (Some 50000) 3000 1500 2 1200 = Ok s /\
      graph_data out = map (graph_entry_of_trace (s_investment s)) (scenario_traces s) /\
      Forall (fun scenario =>
                Forall (fun l => (y_ebit l <= 0 -> y_tax l = 0) /\ 0 <= y_tax l)
                       (snd scenario))
             (scenario_traces s).
Proof.
  eexists. split; [reflexivity|].
  apply (tax_floor "latam" "retail" (Some 50000) 3000 1500 2 1200). reflexivity.
Defined.

(** The floor of line 203, in any year and for any investment. *)
Lemma build_table_net_assets_floor (m ct inv : Q) (c : Costs Q) (base : Q) :
  Forall (fun row => 0 <= Net_Assets row) (build_table m ct inv c base).
Proof.
  unfold build_table.
  apply (fold_left_preserves
           (fun st => Forall (fun row => 0 <= Net_Assets row) (table_rows st))).
  - intros st i Hst. cbn [table_step table_rows]. apply Forall_app; split; [assumption|].
    constructor; [|constructor]. cbn [Net_Assets].
    change (@ltb Q Number_Q) with Qltb. change (@of_Z Q Number_Q 0) with 0.
    destruct (Qltb _ 0) eqn:Hlt; [lra|]. apply Qltb_false in Hlt. exact Hlt.
  - constructor.
Qed.

Ltac to_Q :=
  cbv [add sub mul neg quot ltb of_Z lit is_zero Number_Q inject_Z] in *.

(** C5: with an investment that is not negative, 'Net Assets' is not negative
    in any of the three years: the book value starts at the investment, loses
    one annual amortization (a fifth of the investment) per year, and is
    floored at 0. *)
Theorem net_assets_never_negative
    (region industry : string) (investment : option Q)
    (owner_salary rent nb_emp emp_salary : Q) (out : Output Q) :
  0 <= default_investment investment ->
  perform_calculations region industry investment owner_salary rent nb_emp emp_salary
    = Ok out ->
  Forall (fun row => 0 <= Net_Assets row) (df_table out) /\
  exists a1 a2 a3,
    map Net_Assets (df_table out) = [a1; a2; a3] /\
    a1 == default_investment investment - 1 * (default_investment investment / 5) /\
    a2 == default_investment investment - 2 * (default_investment investment / 5) /\
    a3 == default_investment investment - 3 * (default_investment investment / 5).
Proof.
  intros Hinv Hout. apply perform_calculations_in_Ok in Hout as (s & Hs & ->).
  split; [apply build_table_net_assets_floor|].
  apply setup_Ok in Hs as (sector & zone & _ & _ & _ & Hi & _ & _ & Hc & _).
  unfold project, build_table; cbn [df_table]. rewrite Hc, Hi.
  set (inv := default_investment investment) in *.
  cbv [fold_left seq table_step table_rows net_fixed_assets t_cumulative_cash app map
       Net_Assets costs annual_amortization].
  do 3 eexists. split; [reflexivity|].
  to_Q. unfold Qdiv. change (/ 5) with (1 # 5).
  assert (H1 : Qltb (inv - inv * (1 # 5)) 0 = false) by (apply Qltb_false; lra).
  rewrite H1.
  assert (H2 : Qltb (inv - inv * (1 # 5) - inv * (1 # 5)) 0 = false)
    by (apply Qltb_false; lra).
  rewrite H2.
  assert (H3 : Qltb (inv - inv * (1 # 5) - inv * (1 # 5) - inv * (1 # 5)) 0 = false)
    by (apply Qltb_false; lra).
  rewrite H3.
  repeat split; lra.
Qed.

Lemma net_assets_never_negative_witness :
  exists out,
    perform_calculations "afr" "industry" (Some 1000) 1500 800 0 0 = Ok out /\
    Forall (fun row => 0 <= Net_Assets row) (df_table out) /\
    exists a1 a2 a3,
      map Net_Assets (df_table out) = [a1; a2; a3] /\
      a1 == 1000 - 1 * (1000 / 5) /\
      a2 == 1000 - 2 * (1000 / 5) /\
      a3 == 1000 - 3 * (1000 / 5).
Proof.
  eexists. split; [reflexivity|].
  apply (net_assets_never_negative "afr" "industry" (Some 1000) 1500 800 0 0).
  - cbn. lra.
  - reflexivity.
Defined.

(** C6: two requests that differ in the investment only, on a sector whose
    margin ratio is positive: the larger investment has the larger (or equal)
    break-even turnover.  The rate tables are arbitrary here; a null investment
    counts as 0. *)
Theorem breakeven_monotone_in_investment
    (sector_ratios : list (string * Sector Q)) (tax_zones : list (string * TaxZone Q))
    (region industry : string) (investment1 investment2 : option Q)
    (owner_salary rent nb_emp emp_salary : Q)
    (sector : Sector Q) (out1 out2 : Output Q) :
  dict_get sector_ratios industry = Ok sector ->
  0 < margin sector ->
  default_investment investment1 <= default_investment investment2 ->
  perform_calculations_in sector_ratios tax_zones region industry investment1
      owner_salary rent nb_emp emp_salary = Ok out1 ->
  perform_calculations_in sector_ratios tax_zones region industry investment2
      owner_salary rent nb_emp emp_salary = Ok out2 ->
  yearly_breakeven_turnover out1 <= yearly_breakeven_turnover out2.
Proof.
  intros Hsector Hmargin Hle Hout1 Hout2.
  apply perform_calculations_in_Ok in Hout1 as (s1 & Hs1 & ->).
  apply perform_calculations_in_Ok in Hout2 as (s2 & Hs2 & ->).
  apply setup_Ok in Hs1 as (sector1 & zone1 & Hsec1 & Hzone1 & _ & _ & _ & _ & Hc1 & Hb1).
  apply setup_Ok in Hs2 as (sector2 & zone2 & Hsec2 & Hzone2 & _ & _ & _ & _ & Hc2 & Hb2).
  rewrite Hsector in Hsec1, Hsec2.
  injection Hsec1 as <-. injection Hsec2 as <-.
  rewrite Hzone1 in Hzone2. injection Hzone2 as <-.
  cbn [project yearly_breakeven_turnover]. rewrite Hb1, Hb2, Hc1, Hc2.
  cbn [costs total_yearly_fixed_costs].
  set (i1 := default_investment investment1) in *.
  set (i2 := default_investment investment2) in *.
  to_Q. unfold Qdiv. change (/ 5) with (1 # 5).
  apply Qmult_le_compat_r.
  - lra.
  - apply Qlt_le_weak, Qinv_lt_0_compat, Hmargin.
Qed.

Lemma breakeven_monotone_in_investment_witness :
  exists out1 out2,
    perform_calculations "eu" "retail" (Some 20000) 2000 3000 1 2000 = Ok out1 /\
    perform_calculations "eu" "retail" (Some 35000) 2000 3000 1 2000 = Ok out2 /\
    yearly_breakeven_turnover out1 <= yearly_breakeven_turnover out2.
Proof.
  do 2 eexists. split; [reflexivity|]. split; [reflexivity|].
  eapply (breakeven_monotone_in_investment SECTOR_RATIOS TAX_ZONES "eu" "retail"
            (Some 20000) (Some 35000) 2000 3000 1 2000).
  - reflexivity.
  - cbn. lra.
  - cbn. lra.
  - reflexivity.
  - reflexivity.
Defined.

(** C8, as it stands, fails on binary64 floats: fixed costs that overflow are
    positive, and so is the break-even turnover, but the turnover of the
    Recession scenario is the same in the three years.  For region 'us',
    industry 'retail', investment 20000, rent 3000, one employee paid 2000 and
    an owner salary of 2^1023 (about 8.99e307), the fixed costs and the
    break-even turnover are +infinity and the Recession turnover is +infinity
    in year 1, year 2 and year 3. *)
Lemma recession_turnover_flat_in_binary64 :
  exists s out trace t1 t2 t3,
    setup SECTOR_RATIOS TAX_ZONES "us" "retail"
      (Some 20000%float) 0x1p+1023%float 3000%float 1%float 2000%float = Ok s /\
    perform_calculations "us" "retail"
      (Some 20000%float) 0x1p+1023%float 3000%float 1%float 2000%float = Ok out /\
    graph_data out = map (graph_entry_of_trace (s_investment s)) (scenario_traces s) /\
    PrimFloat.ltb 0%float (total_yearly_fixed_costs (s_costs s)) = true /\
    PrimFloat.ltb 0%float (yearly_breakeven_turnover out) = true /\
    nth_error (scenario_traces s) 2 = Some ("Recession (-5%)", trace) /\
    map y_curr_turnover trace = [t1; t2; t3] /\
    t1 = infinity /\ t2 = infinity /\ t3 = infinity /\
    PrimFloat.ltb t2 t1 = false /\ PrimFloat.ltb t3 t2 = false.
Proof.
  do 6 eexists.
  repeat match goal with
         | |- _ /\ _ => split
         | |- _ = _ => vm_compute; reflexivity
         end.
Qed.

(** C8, amended: in exact arithmetic, when the yearly fixed costs are positive
    the break-even turnover is positive and, in the Recession scenario (rate
    0.95) of the result the engine returns, the turnover of year i is the
    break-even turnover times 0.95^(i-1), each year's turnover being the
    previous one times the rate, and the three turnovers are positive and
    strictly decreasing.  The turnover is a local of the loop: it shows in the
    returned net profits of the scenario, each of which is the turnover of its
    year times the margin ratio, minus the fixed costs. *)
Theorem recession_turnover_decreasing
    (region industry : string) (investment : option Q)
    (owner_salary rent nb_emp emp_salary : Q) (s : Setup Q) :
  setup SECTOR_RATIOS TAX_ZONES region industry investment
        owner_salary rent nb_emp emp_salary = Ok s ->
  0 < total_yearly_fixed_costs (s_costs s) ->
  exists out recession trace t1 t2 t3 p1 p2 p3,
    perform_calculations region industry investment owner_salary rent nb_emp emp_salary
      = Ok out /\
    graph_data out = map (graph_entry_of_trace (s_investment s)) (scenario_traces s) /\
    nth_error (scenario_traces s) 2 = Some ("Recession (-5%)", trace) /\
    nth_error (graph_data out) 2 = Some recession /\
    name recession = "Recession (-5%)" /\
    map y_curr_turnover trace = [t1; t2; t3] /\
    profit recession = [p1; p2; p3] /\
    p1 == t1 * s_margin_ratio s - total_yearly_fixed_costs (s_costs s) /\
    p2 == t2 * s_margin_ratio s - total_yearly_fixed_costs (s_costs s) /\
    p3 == t3 * s_margin_ratio s - total_yearly_fixed_costs (s_costs s) /\
    0 < yearly_breakeven_turnover out /\
    t1 == yearly_breakeven_turnover out * 0.95 ^ 0 /\
    t2 == yearly_breakeven_turnover out * 0.95 ^ 1 /\
    t3 == yearly_breakeven_turnover out * 0.95 ^ 2 /\
    t2 == t1 * 0.95 /\ t3 == t2 * 0.95 /\
    0 < t3 /\ t3 < t2 /\ t2 < t1.
Proof.
  intros Hs Hcosts.
  pose proof Hs as Hs'.
  apply setup_Ok in Hs' as (sector & zone & Hsector & _ & _ & _ & Hm & _ & _ & Hb).
  apply SECTOR_RATIOS_margin in Hsector as [Hmargin _].
  rewrite <- Hm in Hmargin, Hb.
  assert (Hbase : 0 < s_yearly_breakeven_turnover s).
  { rewrite Hb. cbn [quot Number_Q]. unfold Qdiv.
    apply Qmult_lt_0_compat; [assumption | apply Qinv_lt_0_compat; assumption]. }
  assert (Hfixed : s_yearly_breakeven_turnover s * s_margin_ratio s
                   == total_yearly_fixed_costs (s_costs s)).
  { rewrite Hb. cbn [quot Number_Q]. field. lra. }
  clear Hb.
  set (base := s_yearly_breakeven_turnover s) in *.
  set (m := s_margin_ratio s) in *.
  set (F := total_yearly_fixed_costs (s_costs s)) in *.
  assert (Hloss : forall t, t <= base ->
            t * m - F
            - (if Qltb (inject_Z 0) (t * m - F) then (t * m - F) * s_corp_tax_rate s
               else inject_Z 0)
            == t * m - F).
  { intros t Ht. rewrite tax_floor_branch; [ring | nra]. }
  exists (project s). do 8 eexists.
  split; [apply perform_calculations_in_Ok; eauto|].
  split; [apply graph_data_traces|].
  split; [reflexivity|]. split; [reflexivity|]. split; [reflexivity|].
  split; [reflexivity|]. split; [reflexivity|].
  change (0.95 ^ 0) with 1. change (0.95 ^ 1) with 0.95.
  change (0.95 ^ 2) with (0.95 * 0.95).
  cbn [yearly_breakeven_turnover project].
  cbn [scenario_body y_curr_turnover y_net_profit snd Nat.ltb Nat.leb].
  fold base m F.
  repeat split; to_Q; fold base m F; try lra.
  - apply Hloss. lra.
  - apply Hloss. lra.
  - apply Hloss. lra.
Qed.

Lemma recession_turnover_decreasing_witness :
  exists s out recession trace t1 t2 t3 p1 p2 p3,
    setup SECTOR_RATIOS TAX_ZONES "us" "retail" (Some 20000) 2000 3000 1 2000 = Ok s /\
    perform_calculations "us" "retail" (Some 20000) 2000 3000 1 2000 = Ok out /\
    graph_data out = map (graph_entry_of_trace (s_investment s)) (scenario_traces s) /\
    nth_error (scenario_traces s) 2 = Some ("Recession (-5%)", trace) /\
    nth_error (graph_data out) 2 = Some recession /\
    name recession = "Recession (-5%)" /\
    map y_curr_turnover trace = [t1; t2; t3] /\
    profit recession = [p1; p2; p3] /\
    p1 == t1 * s_margin_ratio s - total_yearly_fixed_costs (s_costs s) /\
    p2 == t2 * s_margin_ratio s - total_yearly_fixed_costs (s_costs s) /\
    p3 == t3 * s_margin_ratio s - total_yearly_fixed_costs (s_costs s) /\
    0 < yearly_breakeven_turnover out /\
    t1 == yearly_breakeven_turnover out * 0.95 ^ 0 /\
    t2 == yearly_breakeven_turnover out * 0.95 ^ 1 /\
    t3 == yearly_breakeven_turnover out * 0.95 ^ 2 /\
    t2 == t1 * 0.95 /\ t3 == t2 * 0.95 /\
    0 < t3 /\ t3 < t2 /\ t2 < t1.
Proof.
  eexists.
  assert (Hs : setup SECTOR_RATIOS TAX_ZONES "us" "retail" (Some 20000) 2000 3000 1 2000
               = Ok ?[s]) by reflexivity.
  destruct (recession_turnover_decreasing
              "us" "retail" (Some 20000) 2000 3000 1 2000 _ Hs)
    as (out & recession & trace & t1 & t2 & t3 & p1 & p2 & p3 & H).
  - vm_compute. reflexivity.
  - exists out, recession, trace, t1, t2, t3, p1, p2, p3. split; [exact Hs | exact H].
Defined.

(** *** The Stagnation scenario against the detailed table *)

Lemma tax_branch_compat (e1 e2 rate : Q) :
  e1 == e2 ->
  (if Qltb 0 e1 then e1 * rate else 0) == (if Qltb 0 e2 then e2 * rate else 0).
Proof.
  intros He.
  destruct (Qltb 0 e1) eqn:H1; destruct (Qltb 0 e2) eqn:H2;
    try apply Qltb_true in H1; try apply Qltb_true in H2;
    try apply Qltb_false in H1; try apply Qltb_false in H2;
    try lra.
  rewrite He. reflexivity.
Qed.

Section Simulation.

Variables (m ct : Q) (c : Costs Q) (base rate : Q).
Hypothesis Hrate : rate == 1.
Hypothesis Hcosts : costs_consistent c.

(** One pass of each loop keeps the two paths in agreement. *)
Lemma step_agrees (sst : ScenarioState Q) (tst : TableState Q) (i : nat) :
  paths_agree base sst tst ->
  paths_agree base (scenario_step m ct c rate sst i) (table_step m ct c base tst i).
Proof.
  intros (Hturn & Hcash & Hprofits & Hcashes).
  unfold costs_consistent in Hcosts.
  assert (Hturn' : (if (0 <? i)%nat then curr_turnover sst * rate else curr_turnover sst)
                   == base).
  { destruct (0 <? i)%nat; rewrite Hturn; [rewrite Hrate; ring | reflexivity]. }
  assert (Hebit : (if (0 <? i)%nat then curr_turnover sst * rate else curr_turnover sst) * m
                  - total_yearly_fixed_costs c
                  == base * m - total_salary_cost_monthly c * 12
                     - rent_monthly c * 12 - annual_amortization c).
  { rewrite Hturn', Hcosts. ring. }
  pose proof (tax_branch_compat _ _ ct Hebit) as Htax.
  unfold paths_agree, scenario_step, table_step, scenario_body.
  cbn [curr_turnover cumulative_cash p_list cash_list t_cumulative_cash table_rows
       y_curr_turnover y_net_profit y_cash_flow_year].
  rewrite !map_app. cbn [map Net_Profit Cash_Position].
  to_Q.
  repeat split.
  - exact Hturn'.
  - rewrite Hcash, Htax, Hebit. ring.
  - apply Forall2_app; [assumption|]. constructor; [|constructor].
    rewrite Htax, Hebit. reflexivity.
  - apply Forall2_app; [assumption|]. constructor; [|constructor].
    rewrite Hcash, Htax, Hebit. ring.
Qed.

Lemma fold_agrees (passes : list nat) (sst : ScenarioState Q) (tst : TableState Q) :
  paths_agree base sst tst ->
  paths_agree base (fold_left (scenario_step m ct c rate) passes sst)
                   (fold_left (table_step m ct c base) passes tst).
Proof.
  revert sst tst. induction passes as [|i passes IH]; intros sst tst Hagree; cbn.
  - assumption.
  - apply IH, step_agrees, Hagree.
Qed.

(** A scenario of rate 1 returns the net profits and the cash positions of
    the table, year by year. *)
Lemma flat_scenario_matches_table (inv : Q) (name0 : string) :
  Forall2 Qeq (profit (run_scenario m ct inv c base (name0, rate)))
              (map Net_Profit (build_table m ct inv c base)) /\
  Forall2 Qeq (cash (run_scenario m ct inv c base (name0, rate)))
              (map Cash_Position (build_table m ct inv c base)).
Proof.
  unfold run_scenario, build_table. cbn [profit cash].
  match goal with
  | |- context [fold_left _ _ ?sst0] =>
      match goal with
      | |- context [fold_left (table_step _ _ _ _) _ ?tst0] =>
          destruct (fold_agrees (seq 0 3) sst0 tst0) as (_ & _ & Hp & Hc)
      end
  end.
  - repeat split; cbn; try reflexivity; constructor.
  - split; assumption.
Qed.

End Simulation.

Lemma costs_are_consistent (salary_tax_rate investment owner_salary rent nb_emp emp_salary : Q) :
  costs_consistent (costs salary_tax_rate investment owner_salary rent nb_emp emp_salary).
Proof.
  unfold costs_consistent, costs. cbn. reflexivity.
Qed.

Lemma Forall2_first {X Y : Type} (R : X -> Y -> Prop) (l : list X) (l' : list Y) x y :
  Forall2 R l l' -> nth_error l 0 = Some x -> nth_error l' 0 = Some y -> R x y.
Proof.
  intros HR Hx Hy. destruct HR as [|x0 y0 l0 l0' Hxy _]; cbn in Hx, Hy.
  - discriminate.
  - injection Hx as <-. injection Hy as <-. exact Hxy.
Qed.

(** The Stagnation scenario of a request against its detailed table. *)
Lemma stagnation_scenario_matches (region industry : string) (investment : option Q)
      (owner_salary rent nb_emp emp_salary : Q) (s : Setup Q) :
  setup SECTOR_RATIOS TAX_ZONES region industry investment
        owner_salary rent nb_emp emp_salary = Ok s ->
  exists stagnation,
    nth_error (graph_data (project s)) 0 = Some stagnation /\
    name stagnation = "Stagnation" /\
    Forall2 Qeq (profit stagnation) (map Net_Profit (df_table (project s))) /\
    Forall2 Qeq (cash stagnation) (map Cash_Position (df_table (project s))).
Proof.
  intros Hs.
  apply setup_Ok in Hs as (sector & zone & _ & _ & _ & _ & _ & _ & Hc & _).
  assert (Hcons : costs_consistent (s_costs s))
    by (rewrite Hc; apply costs_are_consistent).
  eexists. split; [reflexivity|]. split; [reflexivity|].
  apply flat_scenario_matches_table; [reflexivity | exact Hcons].
Qed.

(** C10, as it stands, fails on binary64 floats, the numbers Python computes
    with: the scenario subtracts the fixed costs in one piece (line 172) and
    the table subtracts personnel, rent and amortization one after the other
    (lines 196-197), and the two round differently.  For region 'afr',
    industry 'retail', investment 12345, owner salary 2345, rent 777 and two
    employees paid 1999, year 1 of the Stagnation scenario has net profit 0 and
    cash -9876, and year 1 of the table has a 'Net Profit' above 0 and a 'Cash
    Position' above -9876. *)
Lemma stagnation_differs_in_binary64 :
  exists out stagnation profit1 cash1 row1,
    perform_calculations "afr" "retail"
      (Some 12345%float) 2345%float 777%float 2%float 1999%float = Ok out /\
    nth_error (graph_data out) 0 = Some stagnation /\
    name stagnation = "Stagnation" /\
    nth_error (profit stagnation) 0 = Some profit1 /\
    nth_error (cash stagnation) 0 = Some cash1 /\
    nth_error (df_table out) 0 = Some row1 /\
    profit1 = 0%float /\
    cash1 = (-9876)%float /\
    PrimFloat.eqb profit1 (Net_Profit row1) = false /\
    PrimFloat.ltb profit1 (Net_Profit row1) = true /\
    PrimFloat.eqb cash1 (Cash_Position row1) = false /\
    PrimFloat.ltb cash1 (Cash_Position row1) = true.
Proof.
  do 5 eexists.
  repeat match goal with
         | |- _ /\ _ => split
         | |- _ = _ => vm_compute; reflexivity
         end.
Qed.

(** C10, amended: in exact arithmetic the Stagnation scenario (rate 1.0) agrees
    with the detailed table in each of the three years: its net profits are
    the 'Net Profit' column and its cumulative cash the 'Cash Position'
    column, as rationals. *)
Theorem stagnation_matches_table
    (region industry : string) (investment : option Q)
    (owner_salary rent nb_emp emp_salary : Q) (out : Output Q) :
  perform_calculations region industry investment owner_salary rent nb_emp emp_salary
    = Ok out ->
  exists stagnation,
    nth_error (graph_data out) 0 = Some stagnation /\
    name stagnation = "Stagnation" /\
    List.length (df_table out) = 3%nat /\
    List.length (profit stagnation) = 3%nat /\
    List.length (cash stagnation) = 3%nat /\
    Forall2 Qeq (profit stagnation) (map Net_Profit (df_table out)) /\
    Forall2 Qeq (cash stagnation) (map Cash_Position (df_table out)).
Proof.
  intros Hout. apply perform_calculations_in_Ok in Hout as (s & Hs & ->).
  destruct (stagnation_scenario_matches _ _ _ _ _ _ _ s Hs)
    as (stagnation & Hnth & Hname & Hprofit & Hcash).
  assert (Hrows : List.length (df_table (project s)) = 3%nat)
    by apply build_table_length.
  exists stagnation. repeat split; try assumption.
  - apply Forall2_length in Hprofit. rewrite length_map in Hprofit. congruence.
  - apply Forall2_length in Hcash. rewrite length_map in Hcash. congruence.
Qed.

Lemma stagnation_matches_table_witness :
  exists out stagnation,
    perform_calculations "eu" "retail" (Some 20000) 2000 3000 1 2000 = Ok out /\
    nth_error (graph_data out) 0 = Some stagnation /\
    name stagnation = "Stagnation" /\
    List.length (df_table out) = 3%nat /\
    List.length (profit stagnation) = 3%nat /\
    List.length (cash stagnation) = 3%nat /\
    Forall2 Qeq (profit stagnation) (map Net_Profit (df_table out)) /\
    Forall2 Qeq (cash stagnation) (map Cash_Position (df_table out)).
Proof.
  eexists.
  assert (Hout : perform_calculations "eu" "retail" (Some 20000) 2000 3000 1 2000
                 = Ok ?[out]) by reflexivity.
  destruct (stagnation_matches_table "eu" "retail" (Some 20000) 2000 3000 1 2000 _ Hout)
    as (stagnation & H).
  exists stagnation. split; [exact Hout | exact H].
Defined.

(** C2, as it stands, fails on binary64 floats, and at ordinary amounts: for
    region 'afr', industry 'retail', investment 20000, owner salary 3000, rent
    3000 and no employee (at a salary of 2000), year 1 of the Stagnation
    scenario has EBIT 0, net profit 0 and cash -16000, and year 1 of the table
    has an 'EBIT' above 0, a 'Net Profit' above 0 and a 'Cash Position' above
    -16000: the table subtracts personnel, rent and amortization one after the
    other (lines 196-197), the scenario the fixed costs in one piece (line
    172). *)
Lemma year1_differs_in_binary64 :
  exists out s stagnation profit1 cash1 row1 locals1 locals,
    perform_calculations "afr" "retail"
      (Some 20000%float) 3000%float 3000%float 0%float 2000%float = Ok out /\
    setup SECTOR_RATIOS TAX_ZONES "afr" "retail"
      (Some 20000%float) 3000%float 3000%float 0%float 2000%float = Ok s /\
    nth_error (graph_data out) 0 = Some stagnation /\
    name stagnation = "Stagnation" /\
    nth_error (profit stagnation) 0 = Some profit1 /\
    nth_error (cash stagnation) 0 = Some cash1 /\
    nth_error (df_table out) 0 = Some row1 /\
    Year row1 = "Year 1" /\
    nth_error (scenario_traces s) 0 = Some ("Stagnation", locals1 :: locals) /\
    y_ebit locals1 = 0%float /\
    profit1 = 0%float /\
    cash1 = (-16000)%float /\
    PrimFloat.ltb 0%float (EBIT row1) = true /\
    PrimFloat.eqb profit1 (Net_Profit row1) = false /\
    PrimFloat.ltb profit1 (Net_Profit row1) = true /\
    PrimFloat.eqb cash1 (Cash_Position row1) = false /\
    PrimFloat.ltb cash1 (Cash_Position row1) = true.
Proof.
  do 8 eexists.
  repeat match goal with
         | |- _ /\ _ => split
         | |- _ = _ => vm_compute; reflexivity
         end.
Qed.

(** C2, amended: in exact arithmetic, year 1 of the Stagnation scenario against
    year 1 of the detailed table: same net profit, same cumulative cash; and
    the EBIT of year 1 is 0, in the table and in the scenario, the turnover
    being the break-even turnover: [breakeven * margin - fixed costs == 0]. *)
Theorem breakeven_coherence_year1
    (region industry : string) (investment : option Q)
    (owner_salary rent nb_emp emp_salary : Q) (out : Output Q) :
  perform_calculations region industry investment owner_salary rent nb_emp emp_salary
    = Ok out ->
  exists s stagnation row1 profit1 cash1 locals1 locals,
    setup SECTOR_RATIOS TAX_ZONES region industry investment
          owner_salary rent nb_emp emp_salary = Ok s /\
    nth_error (graph_data out) 0 = Some stagnation /\
    name stagnation = "Stagnation" /\
    nth_error (profit stagnation) 0 = Some profit1 /\
    nth_error (cash stagnation) 0 = Some cash1 /\
    nth_error (df_table out) 0 = Some row1 /\
    Year row1 = "Year 1" /\
    profit1 == Net_Profit row1 /\
    cash1 == Cash_Position row1 /\
    EBIT row1 == 0 /\
    nth_error (scenario_traces s) 0 = Some ("Stagnation", locals1 :: locals) /\
    y_ebit locals1
      = yearly_breakeven_turnover out * s_margin_ratio s
        - total_yearly_fixed_costs (s_costs s) /\
    y_ebit locals1 == 0.
Proof.
  intros Hout. apply perform_calculations_in_Ok in Hout as (s & Hs & ->).
  destruct (stagnation_scenario_matches _ _ _ _ _ _ _ s Hs)
    as (stagnation & Hnth & Hname & Hprofit & Hcash).
  pose proof Hs as Hs'.
  apply setup_Ok in Hs' as (sector & zone & Hsector & _ & _ & _ & Hm & _ & Hc & Hb).
  apply SECTOR_RATIOS_margin in Hsector as [Hmargin _].
  assert (Hcons : costs_consistent (s_costs s))
    by (rewrite Hc; apply costs_are_consistent).
  assert (Hzero : s_yearly_breakeven_turnover s * s_margin_ratio s
                  - total_yearly_fixed_costs (s_costs s) == 0).
  { rewrite Hb, Hm. cbn [quot Number_Q]. field. lra. }
  rewrite graph_data_traces in Hnth. cbn in Hnth. injection Hnth as <-.
  exists s. do 6 eexists.
  split; [exact Hs|]. split; [rewrite graph_data_traces; reflexivity|].
  split; [reflexivity|]. split; [reflexivity|]. split; [reflexivity|].
  split; [reflexivity|]. split; [reflexivity|].
  split; [eapply (Forall2_first _ _ _ _ _ Hprofit); reflexivity|].
  split; [eapply (Forall2_first _ _ _ _ _ Hcash); reflexivity|].
  split.
  { cbn [EBIT]. unfold costs_consistent in Hcons. to_Q. rewrite <- Hzero, Hcons. ring. }
  split; [reflexivity|]. split; [reflexivity|].
  exact Hzero.
Qed.

Lemma breakeven_coherence_year1_witness :
  exists out s stagnation row1 profit1 cash1 locals1 locals,
    perform_calculations "us" "services" (Some 12000) 2800 900 2 2100 = Ok out /\
    setup SECTOR_RATIOS TAX_ZONES "us" "services" (Some 12000) 2800 900 2 2100 = Ok s /\
    nth_error (graph_data out) 0 = Some stagnation /\
    name stagnation = "Stagnation" /\
    nth_error (profit stagnation) 0 = Some profit1 /\
    nth_error (cash stagnation) 0 = Some cash1 /\
    nth_error (df_table out) 0 = Some row1 /\
    Year row1 = "Year 1" /\
    profit1 == Net_Profit row1 /\
    cash1 == Cash_Position row1 /\
    EBIT row1 == 0 /\
    nth_error (scenario_traces s) 0 = Some ("Stagnation", locals1 :: locals) /\
    y_ebit locals1
      = yearly_breakeven_turnover out * s_margin_ratio s
        - total_yearly_fixed_costs (s_costs s) /\
    y_ebit locals1 == 0.
Proof.
  eexists.
  assert (Hout : perform_calculations "us" "services" (Some 12000) 2800 900 2 2100
                 = Ok ?[out]) by reflexivity.
  destruct (breakeven_coherence_year1
              "us" "services" (Some 12000) 2800 900 2 2100 _ Hout)
    as (s & stagnation & row1 & profit1 & cash1 & locals1 & locals & H).
  exists s, stagnation, row1, profit1, cash1, locals1, locals.
  split; [exact Hout | exact H].
Defined.

(** *** What the engine does with input the specification calls invalid *)

(** C4, as it stands, fails: a negative investment and a negative employee
    count are computed with like any other number, and the call returns a
    complete result. *)
Lemma negative_input_is_not_rejected :
  (-20000 < 0 /\
   exists out,
     perform_calculations "us" "retail" (Some (-20000)) 2000 3000 1 2000 = Ok out /\
     List.length (graph_data out) = 3%nat /\ List.length (df_table out) = 3%nat) /\
  (-3 < 0 /\
   exists out,
     perform_calculations "us" "retail" (Some 20000) 2000 3000 (-3) 2000 = Ok out /\
     List.length (graph_data out) = 3%nat /\ List.length (df_table out) = 3%nat /\
     yearly_breakeven_turnover out == -32000).
Proof.
  split; (split; [lra|]); eexists; (split; [reflexivity|]);
    repeat split; vm_compute; reflexivity.
Qed.

(** C4, amended: the engine validates neither the investment nor the employee
    count, and it has no rejection of its own.  With the industry and the
    region found in the tables and numbers (floats) for numeric arguments, a
    margin ratio that is zero makes the call fail with Python's
    ZeroDivisionError at the division of line 153, nothing being returned;
    with any other margin ratio the call returns a complete result whatever
    the numbers, negative ones included: the three scenarios Stagnation,
    Growth and Recession with three net profits and three cash positions
    each, and three table rows.  The statement holds in any arithmetic, the
    binary64 floats of Python among them. *)
Theorem no_input_validation {A : Type} {arithmetic : Number A}
    (sector_ratios : list (string * Sector A)) (tax_zones : list (string * TaxZone A))
    (region industry : string) (investment : option A)
    (owner_salary rent nb_emp emp_salary : A)
    (sector : Sector A) (zone : TaxZone A) :
  dict_get sector_ratios industry = Ok sector ->
  dict_get tax_zones region = Ok zone ->
  (is_zero (margin sector) = true ->
   perform_calculations_in sector_ratios tax_zones region industry investment
       owner_salary rent nb_emp emp_salary = Raise ZeroDivisionError) /\
  (is_zero (margin sector) = false ->
   exists out,
     perform_calculations_in sector_ratios tax_zones region industry investment
         owner_salary rent nb_emp emp_salary = Ok out /\
     map name (graph_data out) = ["Stagnation"; "Growth (+5%)"; "Recession (-5%)"] /\
     Forall (fun entry => List.length (profit entry) = 3%nat /\
                          List.length (cash entry) = 3%nat) (graph_data out) /\
     List.length (df_table out) = 3%nat).
Proof.
  intros Hsector Hzone. split.
  - intros Hzero.
    unfold perform_calculations_in, setup. rewrite Hsector, Hzone. cbn [bind].
    unfold div. rewrite Hzero. reflexivity.
  - intros Hnonzero.
    destruct (setup_total sector_ratios tax_zones region industry investment
                owner_salary rent nb_emp emp_salary sector zone Hsector Hzone Hnonzero)
      as [s Hs].
    exists (project s). split; [apply perform_calculations_in_Ok; eauto|].
    split; [reflexivity|]. split; [|apply build_table_length].
    rewrite graph_data_traces. apply Forall_map, Forall_map, Forall_forall.
    intros [name0 rate] _. cbn [graph_entry_of_trace profit cash snd].
    rewrite running_total_length, !length_map, scenario_trace_length. auto.
Qed.

Lemma no_input_validation_witness :
  (is_zero (A:=float) (lit 0.40%Q) = true ->
   perform_calculations "us" "retail"
     (Some (-20000)%float) 2000%float 3000%float (-3)%float 2000%float
   = Raise ZeroDivisionError) /\
  (is_zero (A:=float) (lit 0.40%Q) = false ->
   exists out,
     perform_calculations "us" "retail"
       (Some (-20000)%float) 2000%float 3000%float (-3)%float 2000%float = Ok out /\
     map name (graph_data out) = ["Stagnation"; "Growth (+5%)"; "Recession (-5%)"] /\
     Forall (fun entry => List.length (profit entry) = 3%nat /\
                          List.length (cash entry) = 3%nat) (graph_data out) /\
     List.length (df_table out) = 3%nat).
Proof.
  apply (no_input_validation SECTOR_RATIOS TAX_ZONES "us" "retail"
           (Some (-20000)%float) 2000%float 3000%float (-3)%float 2000%float
           {| margin := lit 0.40%Q; stock_need := lit 0.15%Q;
              sector_label := "Retail (Store)" |}
           {| zone_label := "North America (USA/Canada)";
              salary_tax := lit 0.25%Q; corp_tax := lit 0.21%Q |});
    reflexivity.
Defined.

(** The division of line 153 does raise on a sector table that has a zero
    margin, and with the tables of the source it never does. *)
Example zero_margin_raises :
  perform_calculations_in
    [("barter", {| margin := 0; stock_need := 0; sector_label := "Barter" |})]
    TAX_ZONES "eu" "barter" (Some 20000) 2000 3000 1 2000
  = Raise ZeroDivisionError.
Proof. reflexivity. Qed.

Example unknown_industry_raises :
  perform_calculations (A:=Q) "eu" "farming" (Some 20000) 2000 3000 1 2000
  = Raise (KeyError "farming").
Proof. reflexivity. Qed.

(** On floats a margin of [-0.0] is a zero divisor too, as in Python. *)
Example negative_zero_margin_raises :
  perform_calculations_in
    [("barter", {| margin := (-0)%float; stock_need := 0%float; sector_label := "Barter" |})]
    TAX_ZONES "eu" "barter" (Some 20000%float) 2000%float 3000%float 1%float 2000%float
  = Raise ZeroDivisionError.
Proof. reflexivity. Qed.

(** * Further properties of [perform_calculations] *)

(** ** Which requests succeed, and how the others fail *)

Lemma dict_get_Ok_In {V : Type} (d : list (string * V)) (key : string) :
  (exists v, dict_get d key = Ok v) <-> In key (map fst d).
Proof.
  induction d as [|[k v] d IH]; cbn.
  - split; [intros [v Hv]; discriminate | intros []].
  - destruct (String.eqb k key) eqn:Hk.
    + apply String.eqb_eq in Hk. split; [auto | eauto].
    + apply String.eqb_neq in Hk. rewrite IH. split; [auto | intros [Heq|Hin]; tauto].
Qed.

Lemma dict_get_Raise {V : Type} (d : list (string * V)) (key : string) (e : exn) :
  dict_get d key = Raise e -> e = KeyError key /\ ~ In key (map fst d).
Proof.
  intros He. split.
  - induction d as [|[k v] d IH]; cbn in He.
    + injection He as <-. reflexivity.
    + destruct (String.eqb k key); [discriminate | auto].
  - intros Hin. apply dict_get_Ok_In in Hin as [v Hv]. congruence.
Qed.

Lemma float_margin_not_zero (industry : string) (sector : Sector float) :
  dict_get SECTOR_RATIOS industry = Ok sector -> is_zero (margin sector) = false.
Proof.
  cbn [dict_get SECTOR_RATIOS].
  repeat (destruct (String.eqb _ industry);
          [intros Hs; injection Hs as <-; vm_compute; reflexivity|]).
  discriminate.
Qed.

Section Success.

Context {A : Type} `{Number A}.
Hypothesis margins_not_zero :
  forall industry sector,
    dict_get SECTOR_RATIOS industry = Ok sector -> is_zero (margin sector) = false.

Lemma succeeds_iff_keys_known (region industry : string) (investment : option A)
      (owner_salary rent nb_emp emp_salary : A) :
  (exists out,
     perform_calculations region industry investment owner_salary rent nb_emp emp_salary
     = Ok out) <->
  In industry (map fst (@SECTOR_RATIOS A _)) /\ In region (map fst (@TAX_ZONES A _)).
Proof.
  rewrite <- !dict_get_Ok_In. split.
  - intros [out Hout]. apply perform_calculations_in_Ok in Hout as (s & Hs & _).
    apply setup_Ok in Hs as (sector & zone & Hsector & Hzone & _). eauto.
  - intros [[sector Hsector] [zone Hzone]].
    destruct (setup_total SECTOR_RATIOS TAX_ZONES region industry investment
                owner_salary rent nb_emp emp_salary sector zone Hsector Hzone) as [s Hs].
    + eapply margins_not_zero, Hsector.
    + exists (project s). apply perform_calculations_in_Ok. eauto.
Qed.

Lemma failure_is_KeyError (region industry : string) (investment : option A)
      (owner_salary rent nb_emp emp_salary : A) (e : exn) :
  perform_calculations region industry investment owner_salary rent nb_emp emp_salary
    = Raise e ->
  (e = KeyError industry /\ ~ In industry (map fst (@SECTOR_RATIOS A _))) \/
  (e = KeyError region /\ In industry (map fst (@SECTOR_RATIOS A _)) /\
   ~ In region (map fst (@TAX_ZONES A _))).
Proof.
  unfold perform_calculations, perform_calculations_in, setup.
  destruct (dict_get SECTOR_RATIOS industry) as [sector|e1] eqn:Hsector; cbn [bind].
  - destruct (dict_get TAX_ZONES region) as [zone|e2] eqn:Hzone; cbn [bind].
    + unfold div. rewrite (margins_not_zero _ _ Hsector). cbn [bind]. discriminate.
    + intros He. injection He as <-. right.
      apply dict_get_Raise in Hzone as [-> Hnot].
      repeat split; [|assumption]. apply dict_get_Ok_In. eauto.
  - intros He. injection He as <-. left. apply dict_get_Raise in Hsector. exact Hsector.
Qed.

End Success.

(** X1: called with floats for numeric arguments (the investment may also be
    None), the engine returns a result exactly when the industry is one of
    'retail', 'services', 'industry' and the region one of 'eu', 'us', 'asia',
    'latam', 'afr': no float, be it negative, zero, infinite or NaN, makes the
    call raise. *)
Theorem returns_iff_keys_known
    (region industry : string) (investment : option float)
    (owner_salary rent nb_emp emp_salary : float) :
  (exists out,
     perform_calculations region industry investment owner_salary rent nb_emp emp_salary
     = Ok out) <->
  In industry ["retail"; "services"; "industry"] /\
  In region ["eu"; "us"; "asia"; "latam"; "afr"].
Proof.
  apply (succeeds_iff_keys_known float_margin_not_zero).
Qed.

(** X2: called with floats for numeric arguments (the investment may also be
    None), a call that fails fails with KeyError and nothing else: on the
    industry when the industry is unknown (the region is then not even looked
    up), on the region otherwise.  ZeroDivisionError is never raised, no
    margin of the sector table being zero. *)
Theorem failure_names_the_unknown_key
    (region industry : string) (investment : option float)
    (owner_salary rent nb_emp emp_salary : float) (e : exn) :
  perform_calculations region industry investment owner_salary rent nb_emp emp_salary
    = Raise e ->
  (e = KeyError industry /\ ~ In industry ["retail"; "services"; "industry"]) \/
  (e = KeyError region /\ In industry ["retail"; "services"; "industry"] /\
   ~ In region ["eu"; "us"; "asia"; "latam"; "afr"]).
Proof.
  apply (failure_is_KeyError float_margin_not_zero).
Qed.

Lemma failure_names_the_unknown_key_witness :
  (KeyError "farming" = KeyError "farming" /\
   ~ In "farming" ["retail"; "services"; "industry"]) \/
  (KeyError "farming" = KeyError "mars" /\ In "farming" ["retail"; "services"; "industry"] /\
   ~ In "mars" ["eu"; "us"; "asia"; "latam"; "afr"]).
Proof.
  apply (failure_names_the_unknown_key "mars" "farming" None
           2000%float 3000%float 1%float 2000%float).
  reflexivity.
Defined.

(** ** How the lists of a scenario hang together *)

Section ScenarioShape.

Context {A : Type} `{Number A}.

(** The first pass of the inner loop does not read the rate (line 168). *)
Lemma scenario_body_first_year (m ct : A) (c : Costs A) (rate1 rate2 t : A) :
  scenario_body m ct c rate1 0 t = scenario_body m ct c rate2 0 t.
Proof. reflexivity. Qed.

Lemma trace_cash_flows (m ct : A) (c : Costs A) (rate : A) (passes : list nat) (t : A) :
  map y_cash_flow_year (scenario_trace m ct c rate passes t)
  = map (fun p => add p (annual_amortization c))
        (map y_net_profit (scenario_trace m ct c rate passes t)).
Proof.
  revert t. induction passes as [|i passes IH]; intros t; cbn [scenario_trace map].
  - reflexivity.
  - rewrite IH. reflexivity.
Qed.

(** X3: the growth rate is applied from year 2 on only: in year 1 the three
    scenarios have one and the same net profit and one and the same cash
    position, whatever the arithmetic. *)
Theorem first_year_same_in_all_scenarios
    (region industry : string) (investment : option A)
    (owner_salary rent nb_emp emp_salary : A) (out : Output A) :
  perform_calculations region industry investment owner_salary rent nb_emp emp_salary
    = Ok out ->
  exists profit1 cash1,
    Forall (fun entry => nth_error (profit entry) 0 = Some profit1 /\
                         nth_error (cash entry) 0 = Some cash1)
           (graph_data out).
Proof.
  intros Hout. apply perform_calculations_in_Ok in Hout as (s & _ & ->).
  rewrite graph_data_traces. do 2 eexists.
  unfold scenario_traces. apply Forall_map, Forall_map, Forall_forall.
  intros [name0 rate] _. cbn [snd seq scenario_trace].
  cbn [graph_entry_of_trace profit cash snd map running_total nth_error].
  rewrite (scenario_body_first_year _ _ _ rate (of_Z 1)). split; reflexivity.
Qed.

(** X4: in every scenario the cash list is the running total, from
    [- investment], of the net profits with the annual amortization
    ([investment / 5]) added back to each; whatever the arithmetic. *)
Theorem cash_is_running_total_of_profit
    (region industry : string) (investment : option A)
    (owner_salary rent nb_emp emp_salary : A) (out : Output A) :
  perform_calculations region industry investment owner_salary rent nb_emp emp_salary
    = Ok out ->
  Forall (fun entry =>
            cash entry
            = running_total (neg (default_investment investment))
                (map (fun p => add p (quot (default_investment investment) (of_Z 5)))
                     (profit entry)))
         (graph_data out).
Proof.
  intros Hout. apply perform_calculations_in_Ok in Hout as (s & Hs & ->).
  apply setup_Ok in Hs as (sector & zone & _ & _ & _ & Hi & _ & _ & Hc & _).
  rewrite graph_data_traces. unfold scenario_traces.
  apply Forall_map, Forall_map, Forall_forall.
  intros [name0 rate] _. cbn [graph_entry_of_trace profit cash snd].
  rewrite trace_cash_flows, Hi, Hc. reflexivity.
Qed.

End ScenarioShape.

Lemma first_year_same_in_all_scenarios_witness :
  exists out profit1 cash1,
    perform_calculations "latam" "industry"
      (Some 8000%float) 1500%float 950%float 3%float 1100%float = Ok out /\
    Forall (fun entry => nth_error (profit entry) 0 = Some profit1 /\
                         nth_error (cash entry) 0 = Some cash1)
           (graph_data out).
Proof.
  eexists.
  assert (Hout : perform_calculations "latam" "industry"
                   (Some 8000%float) 1500%float 950%float 3%float 1100%float
                 = Ok ?[out]) by (vm_compute; reflexivity).
  destruct (first_year_same_in_all_scenarios _ _ _ _ _ _ _ _ Hout)
    as (profit1 & cash1 & H).
  exists profit1, cash1. split; [exact Hout | exact H].
Defined.

Lemma cash_is_running_total_of_profit_witness :
  exists out,
    perform_calculations "latam" "industry" (Some 8000%Q) 1500%Q 950%Q 3%Q 1100%Q = Ok out /\
    Forall (fun entry =>
              cash entry
              = running_total (- 8000)%Q
                  (map (fun p => (p + 8000 / 5)%Q) (profit entry)))
           (graph_data out).
Proof.
  eexists. split; [reflexivity|].
  exact (cash_is_running_total_of_profit
           "latam" "industry" (Some 8000%Q) 1500%Q 950%Q 3%Q 1100%Q _ eq_refl).
Defined.

(** ** The detailed table, line by line *)

(** The rows add up, for any turnover the loop is run on. *)
Lemma build_table_adds_up (m ct inv : Q) (c : Costs Q) (base : Q) :
  Forall (fun row =>
            Gross_Margin row == Turnover row + COGS row /\
            EBITDA row == Gross_Margin row + Personnel row + Rent_Charges row /\
            EBIT row == EBITDA row + Amortization row /\
            Net_Profit row == EBIT row + Tax row)
         (build_table m ct inv c base).
Proof.
  unfold build_table.
  apply (fold_left_preserves
           (fun st => Forall (fun row =>
              Gross_Margin row == Turnover row + COGS row /\
              EBITDA row == Gross_Margin row + Personnel row + Rent_Charges row /\
              EBIT row == EBITDA row + Amortization row /\
              Net_Profit row == EBIT row + Tax row) (table_rows st))).
  - intros st i Hst. cbn [table_step table_rows]. apply Forall_app; split; [assumption|].
    constructor; [|constructor].
    cbn [Turnover COGS Gross_Margin Personnel Rent_Charges EBITDA Amortization EBIT Tax
         Net_Profit].
    to_Q. repeat split; ring.
  - constructor.
Qed.

(** X5: every row of the detailed table adds up: gross margin is turnover
    plus COGS, EBITDA is gross margin plus personnel plus rent/charges, EBIT is
    EBITDA plus amortization, net profit is EBIT plus tax (the costs being
    stored with a minus sign). *)
Theorem statement_rows_add_up
    (region industry : string) (investment : option Q)
    (owner_salary rent nb_emp emp_salary : Q) (out : Output Q) :
  perform_calculations region industry investment owner_salary rent nb_emp emp_salary
    = Ok out ->
  Forall (fun row =>
            Gross_Margin row == Turnover row + COGS row /\
            EBITDA row == Gross_Margin row + Personnel row + Rent_Charges row /\
            EBIT row == EBITDA row + Amortization row /\
            Net_Profit row == EBIT row + Tax row)
         (df_table out).
Proof.
  intros Hout. apply perform_calculations_in_Ok in Hout as (s & _ & ->).
  apply build_table_adds_up.
Qed.

Lemma statement_rows_add_up_witness :
  exists out,
    perform_calculations "asia" "retail" (Some 30000) 2200 1800 2 1500 = Ok out /\
    Forall (fun row =>
              Gross_Margin row == Turnover row + COGS row /\
              EBITDA row == Gross_Margin row + Personnel row + Rent_Charges row /\
              EBIT row == EBITDA row + Amortization row /\
              Net_Profit row == EBIT row + Tax row)
           (df_table out).
Proof.
  eexists. split; [reflexivity|].
  apply (statement_rows_add_up "asia" "retail" (Some 30000) 2200 1800 2 1500).
  reflexivity.
Defined.

(** Net profit out of an EBIT whose value is known. *)
Lemma net_profit_of_gain (ebit k rate : Q) :
  ebit == k -> 0 <= k ->
  ebit - (if Qltb 0 ebit then ebit * rate else 0) == k * (1 - rate).
Proof.
  intros He Hk. destruct (Qltb 0 ebit) eqn:Hlt.
  - rewrite He. ring.
  - apply Qltb_false in Hlt. assert (Hz : k == 0) by lra. rewrite He, Hz. ring.
Qed.

Lemma net_profit_of_loss (ebit k rate : Q) :
  ebit == k -> k <= 0 ->
  ebit - (if Qltb 0 ebit then ebit * rate else 0) == k.
Proof.
  intros He Hk. destruct (Qltb 0 ebit) eqn:Hlt.
  - apply Qltb_true in Hlt. lra.
  - rewrite He. ring.
Qed.

(** X6: the detailed table is flat at break-even: in each of the three years
    EBITDA is the annual amortization (a fifth of the investment), EBIT, tax
    and net profit are 0, and the cash position after year k is
    [- investment + k * investment / 5]. *)
Theorem statement_is_flat_at_breakeven
    (region industry : string) (investment : option Q)
    (owner_salary rent nb_emp emp_salary : Q) (out : Output Q) :
  perform_calculations region industry investment owner_salary rent nb_emp emp_salary
    = Ok out ->
  Forall (fun row => EBITDA row == default_investment investment / 5 /\
                     EBIT row == 0 /\ Tax row = 0 /\ Net_Profit row == 0)
         (df_table out) /\
  Forall2 Qeq (map Cash_Position (df_table out))
    [ - default_investment investment + 1 * (default_investment investment / 5);
      - default_investment investment + 2 * (default_investment investment / 5);
      - default_investment investment + 3 * (default_investment investment / 5) ].
Proof.
  intros Hout. apply perform_calculations_in_Ok in Hout as (s & Hs & ->).
  apply setup_Ok in Hs as (sector & zone & Hsector & _ & _ & Hi & Hm & _ & Hc & Hb).
  apply SECTOR_RATIOS_margin in Hsector as [Hmargin _].
  pose proof (costs_are_consistent (salary_tax zone) (default_investment investment)
                owner_salary rent nb_emp emp_salary) as Hcons.
  rewrite <- Hc in Hcons. unfold costs_consistent in Hcons.
  assert (Ha : annual_amortization (s_costs s) == default_investment investment / 5)
    by (rewrite Hc; reflexivity).
  assert (Hebit : s_yearly_breakeven_turnover s * s_margin_ratio s
                  - total_salary_cost_monthly (s_costs s) * 12
                  - rent_monthly (s_costs s) * 12 - annual_amortization (s_costs s) == 0).
  { rewrite Hb, Hm. cbn [quot Number_Q]. rewrite Hcons. field. lra. }
  pose proof (net_profit_of_loss _ 0 (s_corp_tax_rate s) Hebit ltac:(lra)) as Hnp.
  assert (Htax : Qltb 0 (s_yearly_breakeven_turnover s * s_margin_ratio s
                  - total_salary_cost_monthly (s_costs s) * 12
                  - rent_monthly (s_costs s) * 12 - annual_amortization (s_costs s)) = false)
    by (apply Qltb_false; lra).
  unfold project, build_table; cbn [df_table]. rewrite Hi.
  set (inv := default_investment investment) in *.
  cbv [fold_left seq table_step table_rows net_fixed_assets t_cumulative_cash app map
       Cash_Position].
  to_Q. rewrite !Htax in *. split.
  - repeat constructor; cbn [EBITDA EBIT Tax Net_Profit]; lra.
  - repeat constructor; lra.
Qed.

Lemma statement_is_flat_at_breakeven_witness :
  exists out,
    perform_calculations "eu" "industry" (Some 25000) 1800 1000 4 1600 = Ok out /\
    Forall (fun row => EBITDA row == 25000 / 5 /\
                       EBIT row == 0 /\ Tax row = 0 /\ Net_Profit row == 0)
           (df_table out) /\
    Forall2 Qeq (map Cash_Position (df_table out))
      [ - 25000 + 1 * (25000 / 5); - 25000 + 2 * (25000 / 5); - 25000 + 3 * (25000 / 5) ].
Proof.
  eexists. split; [reflexivity|].
  exact (statement_is_flat_at_breakeven
           "eu" "industry" (Some 25000) 1800 1000 4 1600 _ eq_refl).
Defined.

(** ** The scenarios against one another *)

Lemma net_profit_monotone (e1 e2 rate : Q) :
  0 <= rate -> rate <= 1 -> e1 <= e2 ->
  e1 - (if Qltb 0 e1 then e1 * rate else 0) <= e2 - (if Qltb 0 e2 then e2 * rate else 0).
Proof.
  intros H0 H1 Hle.
  destruct (Qltb 0 e1) eqn:L1; destruct (Qltb 0 e2) eqn:L2;
    try apply Qltb_true in L1; try apply Qltb_true in L2;
    try apply Qltb_false in L1; try apply Qltb_false in L2; try nra.
Qed.

Lemma running_total_monotone (s1 s2 : Q) (flows1 flows2 : list Q) :
  s1 <= s2 -> Forall2 Qle flows1 flows2 ->
  Forall2 Qle (running_total s1 flows1) (running_total s2 flows2).
Proof.
  intros Hs Hflows. revert s1 s2 Hs.
  induction Hflows as [|f1 f2 flows1 flows2 Hf _ IH]; intros s1 s2 Hs; cbn [running_total].
  - constructor.
  - to_Q. constructor; [lra | apply IH; lra].
Qed.

Lemma Forall2_map_both {X Y X' Y' : Type} (f : X -> X') (g : Y -> Y')
      (R : X' -> Y' -> Prop) (l : list X) (l' : list Y) :
  Forall2 (fun x y => R (f x) (g y)) l l' -> Forall2 R (map f l) (map g l').
Proof.
  induction 1; cbn; constructor; assumption.
Qed.

Section RateMonotone.

Variables (m ct : Q) (c : Costs Q).
Hypothesis Hm : 0 <= m.
Hypothesis Hct0 : 0 <= ct.
Hypothesis Hct1 : ct <= 1.

(** A larger rate on a larger turnover: larger profits and cash flows, pass
    by pass. *)
Lemma scenario_trace_monotone (r1 r2 : Q) (passes : list nat) (t1 t2 : Q) :
  0 <= r1 -> r1 <= r2 -> 0 <= t1 -> t1 <= t2 ->
  Forall2 (fun l1 l2 => y_net_profit l1 <= y_net_profit l2 /\
                        y_cash_flow_year l1 <= y_cash_flow_year l2)
          (scenario_trace m ct c r1 passes t1) (scenario_trace m ct c r2 passes t2).
Proof.
  intros Hr0 Hr. revert t1 t2.
  induction passes as [|i passes IH]; intros t1 t2 Ht0 Ht; cbn [scenario_trace].
  - constructor.
  - assert (Hturn : 0 <= (if (0 <? i)%nat then t1 * r1 else t1) /\
                    (if (0 <? i)%nat then t1 * r1 else t1)
                    <= (if (0 <? i)%nat then t2 * r2 else t2)).
    { destruct (0 <? i)%nat; [split; nra | split; assumption]. }
    destruct Hturn as [Hturn0 Hturn].
    constructor.
    + cbn [scenario_body y_net_profit y_cash_flow_year]. to_Q.
      set (u1 := if (0 <? i)%nat then t1 * r1 else t1) in *.
      set (u2 := if (0 <? i)%nat then t2 * r2 else t2) in *.
      assert (He : u1 * m - total_yearly_fixed_costs c
                   <= u2 * m - total_yearly_fixed_costs c) by nra.
      pose proof (net_profit_monotone _ _ ct Hct0 Hct1 He) as Hnp.
      split; lra.
    + cbn [scenario_body y_curr_turnover]. to_Q. apply IH; assumption.
Qed.

Lemma run_scenario_monotone (inv base r1 r2 : Q) (name1 name2 : string) :
  0 <= r1 -> r1 <= r2 -> 0 <= base ->
  Forall2 Qle (profit (run_scenario m ct inv c base (name1, r1)))
              (profit (run_scenario m ct inv c base (name2, r2))) /\
  Forall2 Qle (cash (run_scenario m ct inv c base (name1, r1)))
              (cash (run_scenario m ct inv c base (name2, r2))).
Proof.
  intros Hr0 Hr Hbase. rewrite !run_scenario_trace. cbn [profit cash].
  pose proof (scenario_trace_monotone r1 r2 (seq 0 3) base base Hr0 Hr Hbase
                ltac:(apply Qle_refl)) as Htrace.
  split.
  - apply Forall2_map_both. revert Htrace. apply Forall2_impl. tauto.
  - apply running_total_monotone; [apply Qle_refl|].
    apply Forall2_map_both. revert Htrace. apply Forall2_impl. tauto.
Qed.

End RateMonotone.

(** With inputs that are not negative the fixed costs are not negative. *)
Lemma fixed_costs_nonneg (salary_tax_rate investment owner_salary rent nb_emp emp_salary : Q) :
  0 <= salary_tax_rate -> 0 <= investment -> 0 <= owner_salary -> 0 <= rent ->
  0 <= nb_emp -> 0 <= emp_salary ->
  0 <= total_yearly_fixed_costs
         (costs salary_tax_rate investment owner_salary rent nb_emp emp_salary).
Proof.
  intros Hs Hi Ho Hr Hn He. cbn [costs total_yearly_fixed_costs]. to_Q.
  unfold Qdiv. change (/ 5) with (1 # 5).
  assert (H1 : 0 <= owner_salary * (1 + salary_tax_rate))
    by (apply Qmult_le_0_compat; lra).
  assert (H2 : 0 <= nb_emp * emp_salary) by (apply Qmult_le_0_compat; lra).
  assert (H3 : 0 <= nb_emp * emp_salary * (1 + salary_tax_rate))
    by (apply Qmult_le_0_compat; lra).
  lra.
Qed.

(** What a request with non-negative inputs has set up. *)
Lemma setup_nonneg (region industry : string) (investment : option Q)
      (owner_salary rent nb_emp emp_salary : Q) (s : Setup Q) :
  setup SECTOR_RATIOS TAX_ZONES region industry investment
        owner_salary rent nb_emp emp_salary = Ok s ->
  0 <= default_investment investment -> 0 <= owner_salary -> 0 <= rent ->
  0 <= nb_emp -> 0 <= emp_salary ->
  0 < s_margin_ratio s /\ s_margin_ratio s <= 1 /\
  0 <= s_corp_tax_rate s /\ s_corp_tax_rate s <= 1 /\
  0 <= total_yearly_fixed_costs (s_costs s) /\
  s_yearly_breakeven_turnover s * s_margin_ratio s
    == total_yearly_fixed_costs (s_costs s) /\
  0 <= s_yearly_breakeven_turnover s.
Proof.
  intros Hs Hi Ho Hr Hn He.
  apply setup_Ok in Hs as (sector & zone & Hsector & Hzone & _ & _ & Hm & Hct & Hc & Hb).
  apply SECTOR_RATIOS_margin in Hsector as [Hm0 Hm1].
  apply TAX_ZONES_rates in Hzone as (Hst & Hct0 & Hct1).
  rewrite <- Hm in *. rewrite <- Hct in *.
  assert (HF : 0 <= total_yearly_fixed_costs (s_costs s))
    by (rewrite Hc; apply fixed_costs_nonneg; assumption).
  assert (Hbm : s_yearly_breakeven_turnover s * s_margin_ratio s
                == total_yearly_fixed_costs (s_costs s)).
  { rewrite Hb. cbn [quot Number_Q]. field. lra. }
  repeat split; try assumption.
  rewrite Hb. cbn [quot Number_Q]. unfold Qdiv.
  apply Qmult_le_0_compat; [assumption|].
  apply Qlt_le_weak, Qinv_lt_0_compat, Hm0.
Qed.

(** X7: for inputs that are not negative the scenarios are ordered in every
    year: the net profit and the cash of Recession are at most those of
    Stagnation, which are at most those of Growth. *)
Theorem scenarios_are_ordered
    (region industry : string) (investment : option Q)
    (owner_salary rent nb_emp emp_salary : Q) (out : Output Q) :
  0 <= default_investment investment -> 0 <= owner_salary -> 0 <= rent ->
  0 <= nb_emp -> 0 <= emp_salary ->
  perform_calculations region industry investment owner_salary rent nb_emp emp_salary
    = Ok out ->
  exists stagnation growth recession,
    graph_data out = [stagnation; growth; recession] /\
    name stagnation = "Stagnation" /\ name growth = "Growth (+5%)" /\
    name recession = "Recession (-5%)" /\
    Forall2 Qle (profit recession) (profit stagnation) /\
    Forall2 Qle (profit stagnation) (profit growth) /\
    Forall2 Qle (cash recession) (cash stagnation) /\
    Forall2 Qle (cash stagnation) (cash growth).
Proof.
  intros Hi Ho Hr Hn He Hout.
  apply perform_calculations_in_Ok in Hout as (s & Hs & ->).
  destruct (setup_nonneg _ _ _ _ _ _ _ s Hs Hi Ho Hr Hn He)
    as (Hm0 & _ & Hct0 & Hct1 & _ & _ & Hbase).
  assert (Hm : 0 <= s_margin_ratio s) by lra.
  do 3 eexists. split; [reflexivity|].
  split; [reflexivity|]. split; [reflexivity|]. split; [reflexivity|].
  destruct (run_scenario_monotone (s_margin_ratio s) (s_corp_tax_rate s) (s_costs s)
              Hm Hct0 Hct1 (s_investment s) (s_yearly_breakeven_turnover s)
              0.95 1.0 "Recession (-5%)" "Stagnation") as [Hp1 Hc1];
    [lra | lra | assumption |].
  destruct (run_scenario_monotone (s_margin_ratio s) (s_corp_tax_rate s) (s_costs s)
              Hm Hct0 Hct1 (s_investment s) (s_yearly_breakeven_turnover s)
              1.0 1.05 "Stagnation" "Growth (+5%)") as [Hp2 Hc2];
    [lra | lra | assumption |].
  repeat split; assumption.
Qed.

Lemma scenarios_are_ordered_witness :
  exists out stagnation growth recession,
    perform_calculations "us" "services" (Some 15000) 2600 1400 2 1900 = Ok out /\
    graph_data out = [stagnation; growth; recession] /\
    name stagnation = "Stagnation" /\ name growth = "Growth (+5%)" /\
    name recession = "Recession (-5%)" /\
    Forall2 Qle (profit recession) (profit stagnation) /\
    Forall2 Qle (profit stagnation) (profit growth) /\
    Forall2 Qle (cash recession) (cash stagnation) /\
    Forall2 Qle (cash stagnation) (cash growth).
Proof.
  eexists.
  assert (Hout : perform_calculations "us" "services" (Some 15000) 2600 1400 2 1900
                 = Ok ?[out]) by reflexivity.
  destruct (scenarios_are_ordered "us" "services" (Some 15000) 2600 1400 2 1900 _
              ltac:(cbn; lra) ltac:(lra) ltac:(lra) ltac:(lra) ltac:(lra) Hout)
    as (stagnation & growth & recession & H).
  exists stagnation, growth, recession. split; [exact Hout | exact H].
Defined.

(** X8: for inputs that are not negative, the net profits of the three
    scenarios in closed form, F being the yearly fixed costs and t the
    corporate tax rate returned: Stagnation 0, 0, 0; Growth 0, 0.05 F (1 - t),
    0.1025 F (1 - t); Recession 0, - 0.05 F, - 0.0975 F (a loss is not taxed). *)
Theorem scenario_profits_in_closed_form
    (region industry : string) (investment : option Q)
    (owner_salary rent nb_emp emp_salary : Q) (s : Setup Q) :
  0 <= default_investment investment -> 0 <= owner_salary -> 0 <= rent ->
  0 <= nb_emp -> 0 <= emp_salary ->
  setup SECTOR_RATIOS TAX_ZONES region industry investment
        owner_salary rent nb_emp emp_salary = Ok s ->
  exists out stagnation growth recession,
    perform_calculations region industry investment owner_salary rent nb_emp emp_salary
      = Ok out /\
    graph_data out = [stagnation; growth; recession] /\
    Forall2 Qeq (profit stagnation) [0; 0; 0] /\
    Forall2 Qeq (profit growth)
      [0; 0.05 * total_yearly_fixed_costs (s_costs s) * (1 - corp_tax_rate out);
          0.1025 * total_yearly_fixed_costs (s_costs s) * (1 - corp_tax_rate out)] /\
    Forall2 Qeq (profit recession)
      [0; - (0.05 * total_yearly_fixed_costs (s_costs s));
          - (0.0975 * total_yearly_fixed_costs (s_costs s))].
Proof.
  intros Hi Ho Hr Hn He Hs.
  destruct (setup_nonneg _ _ _ _ _ _ _ s Hs Hi Ho Hr Hn He)
    as (_ & _ & _ & _ & HF & Hbm & _).
  exists (project s). do 3 eexists.
  split; [apply perform_calculations_in_Ok; eauto|].
  split; [reflexivity|].
  rewrite !run_scenario_trace.
  cbn [profit seq scenario_trace map scenario_body y_net_profit y_curr_turnover
       Nat.ltb Nat.leb project corp_tax_rate].
  to_Q.
  set (F := total_yearly_fixed_costs (s_costs s)) in *.
  set (base := s_yearly_breakeven_turnover s) in *.
  set (m := s_margin_ratio s) in *.
  set (t := s_corp_tax_rate s).
  assert (E1 : base * m - F == 0) by lra.
  assert (E2 : base * 1.0 * m - F == 0) by (rewrite <- Hbm; ring).
  assert (E3 : base * 1.0 * 1.0 * m - F == 0) by (rewrite <- Hbm; ring).
  assert (G2 : base * 1.05 * m - F == 0.05 * F) by (rewrite <- Hbm; ring).
  assert (G3 : base * 1.05 * 1.05 * m - F == 0.1025 * F) by (rewrite <- Hbm; ring).
  assert (R2 : base * 0.95 * m - F == - (0.05 * F)) by (rewrite <- Hbm; ring).
  assert (R3 : base * 0.95 * 0.95 * m - F == - (0.0975 * F)) by (rewrite <- Hbm; ring).
  repeat split; repeat constructor.
  - apply (net_profit_of_loss _ 0 t E1). lra.
  - apply (net_profit_of_loss _ 0 t E2). lra.
  - apply (net_profit_of_loss _ 0 t E3). lra.
  - apply (net_profit_of_loss _ 0 t E1). lra.
  - apply (net_profit_of_gain _ _ t G2). lra.
  - apply (net_profit_of_gain _ _ t G3). lra.
  - apply (net_profit_of_loss _ 0 t E1). lra.
  - apply (net_profit_of_loss _ _ t R2). lra.
  - apply (net_profit_of_loss _ _ t R3). lra.
Qed.

Lemma scenario_profits_in_closed_form_witness :
  exists s out stagnation growth recession,
    setup SECTOR_RATIOS TAX_ZONES "us" "retail" (Some 20000) 2000 3000 1 2000 = Ok s /\
    perform_calculations "us" "retail" (Some 20000) 2000 3000 1 2000 = Ok out /\
    graph_data out = [stagnation; growth; recession] /\
    Forall2 Qeq (profit stagnation) [0; 0; 0] /\
    Forall2 Qeq (profit growth)
      [0; 0.05 * total_yearly_fixed_costs (s_costs s) * (1 - corp_tax_rate out);
          0.1025 * total_yearly_fixed_costs (s_costs s) * (1 - corp_tax_rate out)] /\
    Forall2 Qeq (profit recession)
      [0; - (0.05 * total_yearly_fixed_costs (s_costs s));
          - (0.0975 * total_yearly_fixed_costs (s_costs s))].
Proof.
  eexists.
  assert (Hs : setup SECTOR_RATIOS TAX_ZONES "us" "retail" (Some 20000) 2000 3000 1 2000
               = Ok ?[s]) by reflexivity.
  destruct (scenario_profits_in_closed_form "us" "retail" (Some 20000) 2000 3000 1 2000 _
              ltac:(cbn; lra) ltac:(lra) ltac:(lra) ltac:(lra) ltac:(lra) Hs)
    as (out & stagnation & growth & recession & H).
  exists out, stagnation, growth, recession. split; [exact Hs | exact H].
Defined.

(** X9: for inputs that are not negative the break-even turnover is not
    negative and covers at least the yearly fixed costs (no margin ratio of the
    table exceeds 1), and the fixed costs are the margin on it. *)
Theorem breakeven_covers_fixed_costs
    (region industry : string) (investment : option Q)
    (owner_salary rent nb_emp emp_salary : Q) (s : Setup Q) :
  0 <= default_investment investment -> 0 <= owner_salary -> 0 <= rent ->
  0 <= nb_emp -> 0 <= emp_salary ->
  setup SECTOR_RATIOS TAX_ZONES region industry investment
        owner_salary rent nb_emp emp_salary = Ok s ->
  exists out,
    perform_calculations region industry investment owner_salary rent nb_emp emp_salary
      = Ok out /\
    0 <= total_yearly_fixed_costs (s_costs s) /\
    total_yearly_fixed_costs (s_costs s) <= yearly_breakeven_turnover out /\
    yearly_breakeven_turnover out * s_margin_ratio s
      == total_yearly_fixed_costs (s_costs s).
Proof.
  intros Hi Ho Hr Hn He Hs.
  destruct (setup_nonneg _ _ _ _ _ _ _ s Hs Hi Ho Hr Hn He)
    as (Hm0 & Hm1 & _ & _ & HF & Hbm & Hbase).
  exists (project s). split; [apply perform_calculations_in_Ok; eauto|].
  cbn [project yearly_breakeven_turnover].
  split; [assumption|]. split; [|assumption].
  rewrite <- Hbm. nra.
Qed.

Lemma breakeven_covers_fixed_costs_witness :
  exists s out,
    setup SECTOR_RATIOS TAX_ZONES "afr" "services" (Some 5000) 900 400 1 700 = Ok s /\
    perform_calculations "afr" "services" (Some 5000) 900 400 1 700 = Ok out /\
    0 <= total_yearly_fixed_costs (s_costs s) /\
    total_yearly_fixed_costs (s_costs s) <= yearly_breakeven_turnover out /\
    yearly_breakeven_turnover out * s_margin_ratio s
      == total_yearly_fixed_costs (s_costs s).
Proof.
  eexists.
  assert (Hs : setup SECTOR_RATIOS TAX_ZONES "afr" "services" (Some 5000) 900 400 1 700
               = Ok ?[s]) by reflexivity.
  destruct (breakeven_covers_fixed_costs "afr" "services" (Some 5000) 900 400 1 700 _
              ltac:(cbn; lra) ltac:(lra) ltac:(lra) ltac:(lra) ltac:(lra) Hs)
    as (out & H).
  exists out. split; [exact Hs | exact H].
Defined.

(** X10: each unit of investment costs the same break-even turnover: between
    two requests that differ in the investment only, the break-even turnover
    differs by the difference of the investments over five times the margin
    ratio of the industry. *)
Theorem breakeven_is_affine_in_investment
    (region industry : string) (investment1 investment2 : option Q)
    (owner_salary rent nb_emp emp_salary : Q)
    (sector : Sector Q) (out1 out2 : Output Q) :
  dict_get SECTOR_RATIOS industry = Ok sector ->
  perform_calculations region industry investment1 owner_salary rent nb_emp emp_salary
    = Ok out1 ->
  perform_calculations region industry investment2 owner_salary rent nb_emp emp_salary
    = Ok out2 ->
  yearly_breakeven_turnover out2 - yearly_breakeven_turnover out1
  == (default_investment investment2 - default_investment investment1)
     / (5 * margin sector).
Proof.
  intros Hsector Hout1 Hout2.
  apply perform_calculations_in_Ok in Hout1 as (s1 & Hs1 & ->).
  apply perform_calculations_in_Ok in Hout2 as (s2 & Hs2 & ->).
  apply setup_Ok in Hs1 as (sector1 & zone1 & Hsec1 & Hzone1 & _ & _ & _ & _ & Hc1 & Hb1).
  apply setup_Ok in Hs2 as (sector2 & zone2 & Hsec2 & Hzone2 & _ & _ & _ & _ & Hc2 & Hb2).
  rewrite Hsector in Hsec1, Hsec2.
  injection Hsec1 as <-. injection Hsec2 as <-.
  rewrite Hzone1 in Hzone2. injection Hzone2 as <-.
  apply SECTOR_RATIOS_margin in Hsector as [Hmargin _].
  cbn [project yearly_breakeven_turnover]. rewrite Hb1, Hb2, Hc1, Hc2.
  cbn [costs total_yearly_fixed_costs].
  set (i1 := default_investment investment1) in *.
  set (i2 := default_investment investment2) in *.
  to_Q. field. lra.
Qed.

Lemma breakeven_is_affine_in_investment_witness :
  exists out1 out2,
    perform_calculations "eu" "retail" None 2000 3000 1 2000 = Ok out1 /\
    perform_calculations "eu" "retail" (Some 10000) 2000 3000 1 2000 = Ok out2 /\
    yearly_breakeven_turnover out2 - yearly_breakeven_turnover out1
    == (10000 - 0) / (5 * 0.40).
Proof.
  do 2 eexists. split; [reflexivity|]. split; [reflexivity|].
  exact (breakeven_is_affine_in_investment "eu" "retail" None (Some 10000)
           2000 3000 1 2000 _ _ _ eq_refl eq_refl eq_refl).
Defined.

(** X11: 'Net Assets' is never negative, whatever the investment, a negative
    one included; a negative investment is floored to 0 in year 1 at once. *)
Theorem net_assets_floor_any_investment
    (region industry : string) (investment : option Q)
    (owner_salary rent nb_emp emp_salary : Q) (out : Output Q) :
  perform_calculations region industry investment owner_salary rent nb_emp emp_salary
    = Ok out ->
  Forall (fun row => 0 <= Net_Assets row) (df_table out) /\
  (default_investment investment < 0 ->
   exists row1, nth_error (df_table out) 0 = Some row1 /\ Net_Assets row1 = 0).
Proof.
  intros Hout. apply perform_calculations_in_Ok in Hout as (s & Hs & ->).
  split; [apply build_table_net_assets_floor|].
  intros Hneg.
  apply setup_Ok in Hs as (sector & zone & _ & _ & _ & Hi & _ & _ & Hc & _).
  unfold project, build_table; cbn [df_table]. rewrite Hc, Hi.
  set (inv := default_investment investment) in *.
  cbv [fold_left seq table_step table_rows net_fixed_assets t_cumulative_cash app
       costs annual_amortization nth_error].
  eexists. split; [reflexivity|].
  cbn [Net_Assets]. to_Q. unfold Qdiv. change (/ 5) with (1 # 5).
  assert (Hlt : Qltb (inv - inv * (1 # 5)) 0 = true) by (apply Qltb_true; lra).
  rewrite Hlt. reflexivity.
Qed.

Lemma net_assets_floor_any_investment_witness :
  exists out,
    perform_calculations "us" "retail" (Some (-20000)) 2000 3000 1 2000 = Ok out /\
    Forall (fun row => 0 <= Net_Assets row) (df_table out) /\
    (-20000 < 0 ->
     exists row1, nth_error (df_table out) 0 = Some row1 /\ Net_Assets row1 = 0).
Proof.
  eexists. split; [reflexivity|].
  exact (net_assets_floor_any_investment
           "us" "retail" (Some (-20000)) 2000 3000 1 2000 _ eq_refl).
Defined.

(** * The dashboard *)

Section DashboardFacts.

Context {A : Type} `{Number A}.
Variables (format_currency format_percent : A -> string).

Lemma project_years (s : Setup A) :
  map Year (df_table (project s)) = ["Year 1"; "Year 2"; "Year 3"].
Proof. reflexivity. Qed.

Lemma project_names (s : Setup A) :
  map name (graph_data (project s)) = ["Stagnation"; "Growth (+5%)"; "Recession (-5%)"].
Proof. reflexivity. Qed.

(** Every scenario the engine returns has its colour (line 253 against line
    156), so the lookups of line 256 all succeed. *)
Lemma project_bar_traces (s : Setup A) :
  exists t1 t2 t3,
    bar_traces (graph_data (project s)) = Ok [t1; t2; t3] /\
    map bar_name [t1; t2; t3] = ["Stagnation"; "Growth (+5%)"; "Recession (-5%)"] /\
    map bar_marker_color [t1; t2; t3] = ["#33FFA2"; "#FF33FF"; "#737373"] /\
    map bar_y [t1; t2; t3] = map profit (graph_data (project s)) /\
    Forall (fun t => bar_x t = ["Year 1"; "Year 2"; "Year 3"]) [t1; t2; t3].
Proof.
  do 3 eexists. split; [reflexivity|].
  repeat split; repeat constructor.
Qed.

Lemma project_display_table (s : Setup A) :
  exists table,
    display_table format_currency (df_table (project s)) = Done table /\
    display_header table = "Metric" :: map Year (df_table (project s)) /\
    display_body table
    = map (fun line : string * list A => fst line :: map format_currency (snd line))
          (combine (frame_index (transpose_by_year (df_table (project s))))
                   (frame_values (transpose_by_year (df_table (project s))))).
Proof.
  eexists. split; [reflexivity|]. split; reflexivity.
Qed.

(** No tab fails on what the engine returns. *)
Lemma tab_content_returns (active_tab : string) (s : Setup A) :
  exists content, tab_content format_currency active_tab (project s) = Done content.
Proof.
  unfold tab_content.
  destruct (String.eqb active_tab "tab-1").
  - destruct (project_bar_traces s) as (t1 & t2 & t3 & -> & _).
    cbn [outcome_of and_then]. eauto.
  - destruct (String.eqb active_tab "tab-2"); [eauto|].
    destruct (String.eqb active_tab "tab-3"); [|eauto].
    destruct (project_display_table s) as (table & -> & _).
    cbn [and_then]. eauto.
Qed.

(** X12: once the engine has returned, the callback returns too, on any tab:
    no colour is missing for a scenario and the table has the three rows its
    header needs; the two headline figures are the formatted break-even
    turnover and the formatted tax rate times 100, the same on every tab. *)
Theorem dashboard_returns_on_every_tab
    (n_clicks : option Z) (active_tab region industry : string) (investment : option A)
    (owner_salary rent nb_emp emp_salary : A) (out : Output A) :
  perform_calculations region industry investment owner_salary rent nb_emp emp_salary
    = Ok out ->
  exists content,
    update_dashboard format_currency format_percent n_clicks active_tab
      region industry investment owner_salary rent nb_emp emp_salary
    = Done (format_currency (yearly_breakeven_turnover out),
            format_percent (mul (corp_tax_rate out) (of_Z 100)),
            content).
Proof.
  intros Hout. unfold update_dashboard. rewrite Hout. cbn [outcome_of and_then].
  apply perform_calculations_in_Ok in Hout as (s & _ & ->).
  destruct (tab_content_returns active_tab s) as [content ->].
  cbn [and_then]. eauto.
Qed.

(** X13: on the first tab the figure has one bar trace per scenario, in the
    order Stagnation, Growth, Recession, each in its own colour, with the
    three year labels as x and the three net profits of the scenario as y. *)
Theorem profit_tab_shows_the_three_scenarios
    (n_clicks : option Z) (region industry : string) (investment : option A)
    (owner_salary rent nb_emp emp_salary : A) (out : Output A) :
  perform_calculations region industry investment owner_salary rent nb_emp emp_salary
    = Ok out ->
  exists kpi1 kpi2 t1 t2 t3,
    update_dashboard format_currency format_percent n_clicks "tab-1"
      region industry investment owner_salary rent nb_emp emp_salary
    = Done (kpi1, kpi2, BarFigure "Net Profit Scenarios" [t1; t2; t3]) /\
    map bar_name [t1; t2; t3] = ["Stagnation"; "Growth (+5%)"; "Recession (-5%)"] /\
    map bar_marker_color [t1; t2; t3] = ["#33FFA2"; "#FF33FF"; "#737373"] /\
    map bar_y [t1; t2; t3] = map profit (graph_data out) /\
    Forall (fun t => bar_x t = ["Year 1"; "Year 2"; "Year 3"] /\
                     List.length (bar_y t) = List.length (bar_x t)) [t1; t2; t3].
Proof.
  intros Hout. unfold update_dashboard, tab_content. rewrite Hout.
  cbn [outcome_of and_then String.eqb].
  apply perform_calculations_in_Ok in Hout as (s & _ & ->).
  do 5 eexists. split; [reflexivity|].
  repeat split; repeat constructor.
Qed.

(** X14: on the second tab the figure has one line trace per scenario, in the
    same order and the same colours (the 'grey' of the fallback is never
    used), with the three year labels as x and the three cumulative cash
    values of the scenario as y. *)
Theorem cash_tab_shows_the_three_scenarios
    (n_clicks : option Z) (region industry : string) (investment : option A)
    (owner_salary rent nb_emp emp_salary : A) (out : Output A) :
  perform_calculations region industry investment owner_salary rent nb_emp emp_salary
    = Ok out ->
  exists kpi1 kpi2 t1 t2 t3,
    update_dashboard format_currency format_percent n_clicks "tab-2"
      region industry investment owner_salary rent nb_emp emp_salary
    = Done (kpi1, kpi2, ScatterFigure "Cash Balance Scenarios" [t1; t2; t3]) /\
    map scatter_name [t1; t2; t3] = ["Stagnation"; "Growth (+5%)"; "Recession (-5%)"] /\
    map scatter_line_color [t1; t2; t3] = ["#33FFA2"; "#FF33FF"; "#737373"] /\
    map scatter_y [t1; t2; t3] = map cash (graph_data out) /\
    Forall (fun t => scatter_x t = ["Year 1"; "Year 2"; "Year 3"] /\
                     List.length (scatter_y t) = List.length (scatter_x t)) [t1; t2; t3].
Proof.
  intros Hout. unfold update_dashboard, tab_content. rewrite Hout.
  cbn [outcome_of and_then String.eqb].
  apply perform_calculations_in_Ok in Hout as (s & _ & ->).
  do 5 eexists. split; [reflexivity|].
  repeat split; repeat constructor.
Qed.

(** X15: on a tab that is none of 'tab-1', 'tab-2', 'tab-3' the content is
    the empty Div, next to the same two headline figures. *)
Theorem unknown_tab_shows_nothing
    (n_clicks : option Z) (active_tab region industry : string) (investment : option A)
    (owner_salary rent nb_emp emp_salary : A) (out : Output A) :
  active_tab <> "tab-1" -> active_tab <> "tab-2" -> active_tab <> "tab-3" ->
  perform_calculations region industry investment owner_salary rent nb_emp emp_salary
    = Ok out ->
  update_dashboard format_currency format_percent n_clicks active_tab
    region industry investment owner_salary rent nb_emp emp_salary
  = Done (format_currency (yearly_breakeven_turnover out),
          format_percent (mul (corp_tax_rate out) (of_Z 100)),
          EmptyDiv).
Proof.
  intros H1 H2 H3 Hout. unfold update_dashboard, tab_content. rewrite Hout.
  apply String.eqb_neq in H1, H2, H3. rewrite H1, H2, H3. reflexivity.
Qed.

(** X16: the table of the third tab and the downloaded file hold the same
    data: the download is the statement turned on its side, twelve metrics by
    the three years, its first line being the break-even turnover three times;
    the tab shows these very lines, each value formatted, under the header
    'Metric', 'Year 1', 'Year 2', 'Year 3'. *)
Theorem statement_tab_matches_download
    (n_clicks1 n_clicks2 : option Z) (region industry : string) (investment : option A)
    (owner_salary rent nb_emp emp_salary : A) (out : Output A) :
  perform_calculations region industry investment owner_salary rent nb_emp emp_salary
    = Ok out ->
  exists kpi1 kpi2 table frame,
    update_dashboard format_currency format_percent n_clicks1 "tab-3"
      region industry investment owner_salary rent nb_emp emp_salary
    = Done (kpi1, kpi2, StatementView "Financial Statements (Base Scenario)" table) /\
    download_data n_clicks2 region industry investment owner_salary rent nb_emp emp_salary
    = Done (frame, "danki_financial_plan.csv") /\
    frame_columns frame = ["Year 1"; "Year 2"; "Year 3"] /\
    frame_index frame
    = ["Turnover"; "COGS"; "Gross Margin"; "Personnel"; "Rent/Charges"; "EBITDA";
       "Amortization"; "EBIT"; "Tax"; "Net Profit"; "Cash Position"; "Net Assets"] /\
    List.length (frame_values frame) = 12%nat /\
    Forall (fun line => List.length line = 3%nat) (frame_values frame) /\
    nth_error (frame_values frame) 0
    = Some [yearly_breakeven_turnover out; yearly_breakeven_turnover out;
            yearly_breakeven_turnover out] /\
    display_header table = "Metric" :: frame_columns frame /\
    display_body table
    = map (fun line : string * list A => fst line :: map format_currency (snd line))
          (combine (frame_index frame) (frame_values frame)).
Proof.
  intros Hout. unfold update_dashboard, download_data, tab_content. rewrite Hout.
  cbn [outcome_of and_then String.eqb].
  apply perform_calculations_in_Ok in Hout as (s & _ & ->).
  do 4 eexists. split; [reflexivity|]. split; [reflexivity|].
  repeat split; repeat constructor.
Qed.

End DashboardFacts.

Lemma option_values_are_keys (A : Type) (arithmetic : Number A) :
  map option_value (@region_options A arithmetic) = map fst (@TAX_ZONES A arithmetic) /\
  map option_value (@industry_options A arithmetic)
  = map fst (@SECTOR_RATIOS A arithmetic).
Proof.
  split; reflexivity.
Qed.

(** X17: whatever is selected in the two dropdowns, the callback returns, on
    any tab, when the numeric fields hold floats (the investment field may
    also be cleared, which passes None): the options of the dropdowns are the
    keys of the rate tables, so that no lookup fails, and no margin of the
    sector table is zero. *)
Theorem every_dropdown_choice_is_served
    (format_currency format_percent : float -> string)
    (n_clicks : option Z) (active_tab region industry : string) (investment : option float)
    (owner_salary rent nb_emp emp_salary : float) :
  In region (map option_value (@region_options float _)) ->
  In industry (map option_value (@industry_options float _)) ->
  exists kpi1 kpi2 content,
    update_dashboard format_currency format_percent n_clicks active_tab
      region industry investment owner_salary rent nb_emp emp_salary
    = Done (kpi1, kpi2, content).
Proof.
  intros Hregion Hindustry.
  destruct (option_values_are_keys float _) as [Hr Hi].
  rewrite Hr in Hregion. rewrite Hi in Hindustry.
  destruct (proj2 (succeeds_iff_keys_known float_margin_not_zero region industry
                     investment owner_salary rent nb_emp emp_salary)
                  (conj Hindustry Hregion)) as [out Hout].
  unfold update_dashboard. rewrite Hout. cbn [outcome_of and_then].
  apply perform_calculations_in_Ok in Hout as (s & _ & ->).
  destruct (tab_content_returns format_currency active_tab s) as [content ->].
  cbn [and_then]. eauto.
Qed.

Lemma every_dropdown_choice_is_served_witness :
  exists kpi1 kpi2 content,
    update_dashboard (fun _ : float => "EUR") (fun _ : float => "%") None "tab-1"
      default_region default_industry (Some 20000%float)
      2000%float 3000%float 1%float 2000%float
    = Done (kpi1, kpi2, content).
Proof.
  apply (every_dropdown_choice_is_served (fun _ => "EUR") (fun _ => "%") None "tab-1"
           default_region default_industry (Some 20000%float)
           2000%float 3000%float 1%float 2000%float).
  - cbn. auto.
  - cbn. auto.
Defined.

Lemma dashboard_returns_on_every_tab_witness :
  exists out content,
    perform_calculations "eu" "retail" (Some 20000%Q) 2000%Q 3000%Q 1%Q 2000%Q = Ok out /\
    update_dashboard (fun _ : Q => "EUR") (fun _ : Q => "%") (Some 1%Z) "tab-3"
      "eu" "retail" (Some 20000%Q) 2000%Q 3000%Q 1%Q 2000%Q
    = Done ("EUR", "%", content).
Proof.
  eexists.
  assert (Hout : perform_calculations "eu" "retail" (Some 20000%Q) 2000%Q 3000%Q 1%Q 2000%Q
                 = Ok ?[out]) by reflexivity.
  destruct (dashboard_returns_on_every_tab (fun _ : Q => "EUR") (fun _ : Q => "%")
              (Some 1%Z) "tab-3" "eu" "retail" (Some 20000%Q) 2000%Q 3000%Q 1%Q 2000%Q
              _ Hout) as [content H].
  exists content. split; [exact Hout | exact H].
Defined.

Lemma profit_tab_shows_the_three_scenarios_witness :
  exists out kpi1 kpi2 t1 t2 t3,
    perform_calculations "eu" "retail" (Some 20000%Q) 2000%Q 3000%Q 1%Q 2000%Q = Ok out /\
    update_dashboard (fun _ : Q => "EUR") (fun _ : Q => "%") (Some 1%Z) "tab-1"
      "eu" "retail" (Some 20000%Q) 2000%Q 3000%Q 1%Q 2000%Q
    = Done (kpi1, kpi2, BarFigure "Net Profit Scenarios" [t1; t2; t3]) /\
    map bar_name [t1; t2; t3] = ["Stagnation"; "Growth (+5%)"; "Recession (-5%)"] /\
    map bar_marker_color [t1; t2; t3] = ["#33FFA2"; "#FF33FF"; "#737373"] /\
    map bar_y [t1; t2; t3] = map profit (graph_data out) /\
    Forall (fun t => bar_x t = ["Year 1"; "Year 2"; "Year 3"] /\
                     List.length (bar_y t) = List.length (bar_x t)) [t1; t2; t3].
Proof.
  eexists.
  assert (Hout : perform_calculations "eu" "retail" (Some 20000%Q) 2000%Q 3000%Q 1%Q 2000%Q
                 = Ok ?[out]) by reflexivity.
  destruct (profit_tab_shows_the_three_scenarios (fun _ : Q => "EUR") (fun _ : Q => "%")
              (Some 1%Z) "eu" "retail" (Some 20000%Q) 2000%Q 3000%Q 1%Q 2000%Q
              _ Hout) as (kpi1 & kpi2 & t1 & t2 & t3 & H).
  exists kpi1, kpi2, t1, t2, t3. split; [exact Hout | exact H].
Defined.

Lemma cash_tab_shows_the_three_scenarios_witness :
  exists out kpi1 kpi2 t1 t2 t3,
    perform_calculations "eu" "retail" (Some 20000%Q) 2000%Q 3000%Q 1%Q 2000%Q = Ok out /\
    update_dashboard (fun _ : Q => "EUR") (fun _ : Q => "%") (Some 1%Z) "tab-2"
      "eu" "retail" (Some 20000%Q) 2000%Q 3000%Q 1%Q 2000%Q
    = Done (kpi1, kpi2, ScatterFigure "Cash Balance Scenarios" [t1; t2; t3]) /\
    map scatter_name [t1; t2; t3] = ["Stagnation"; "Growth (+5%)"; "Recession (-5%)"] /\
    map scatter_line_color [t1; t2; t3] = ["#33FFA2"; "#FF33FF"; "#737373"] /\
    map scatter_y [t1; t2; t3] = map cash (graph_data out) /\
    Forall (fun t => scatter_x t = ["Year 1"; "Year 2"; "Year 3"] /\
                     List.length (scatter_y t) = List.length (scatter_x t)) [t1; t2; t3].
Proof.
  eexists.
  assert (Hout : perform_calculations "eu" "retail" (Some 20000%Q) 2000%Q 3000%Q 1%Q 2000%Q
                 = Ok ?[out]) by reflexivity.
  destruct (cash_tab_shows_the_three_scenarios (fun _ : Q => "EUR") (fun _ : Q => "%")
              (Some 1%Z) "eu" "retail" (Some 20000%Q) 2000%Q 3000%Q 1%Q 2000%Q
              _ Hout) as (kpi1 & kpi2 & t1 & t2 & t3 & H).
  exists kpi1, kpi2, t1, t2, t3. split; [exact Hout | exact H].
Defined.

Lemma unknown_tab_shows_nothing_witness :
  exists out,
    perform_calculations "eu" "retail" (Some 20000%Q) 2000%Q 3000%Q 1%Q 2000%Q = Ok out /\
    update_dashboard (fun _ : Q => "EUR") (fun _ : Q => "%") None "tab-9"
      "eu" "retail" (Some 20000%Q) 2000%Q 3000%Q 1%Q 2000%Q
    = Done ("EUR", "%", EmptyDiv).
Proof.
  eexists. split; [reflexivity|].
  exact (unknown_tab_shows_nothing (fun _ : Q => "EUR") (fun _ : Q => "%") None "tab-9"
           "eu" "retail" (Some 20000%Q) 2000%Q 3000%Q 1%Q 2000%Q _
           ltac:(discriminate) ltac:(discriminate) ltac:(discriminate) eq_refl).
Defined.

Lemma statement_tab_matches_download_witness :
  exists out kpi1 kpi2 table frame,
    perform_calculations "eu" "retail" (Some 20000%Q) 2000%Q 3000%Q 1%Q 2000%Q = Ok out /\
    update_dashboard (fun _ : Q => "EUR") (fun _ : Q => "%") (Some 1%Z) "tab-3"
      "eu" "retail" (Some 20000%Q) 2000%Q 3000%Q 1%Q 2000%Q
    = Done (kpi1, kpi2, StatementView "Financial Statements (Base Scenario)" table) /\
    download_data (Some 1%Z) "eu" "retail" (Some 20000%Q) 2000%Q 3000%Q 1%Q 2000%Q
    = Done (frame, "danki_financial_plan.csv") /\
    frame_columns frame = ["Year 1"; "Year 2"; "Year 3"] /\
    frame_index frame
    = ["Turnover"; "COGS"; "Gross Margin"; "Personnel"; "Rent/Charges"; "EBITDA";
       "Amortization"; "EBIT"; "Tax"; "Net Profit"; "Cash Position"; "Net Assets"] /\
    List.length (frame_values frame) = 12%nat /\
    Forall (fun line => List.length line = 3%nat) (frame_values frame) /\
    nth_error (frame_values frame) 0
    = Some [yearly_breakeven_turnover out; yearly_breakeven_turnover out;
            yearly_breakeven_turnover out] /\
    display_header table = "Metric" :: frame_columns frame /\
    display_body table
    = map (fun line : string * list Q =>
             fst line :: map (fun _ : Q => "EUR") (snd line))
          (combine (frame_index frame) (frame_values frame)).
Proof.
  eexists.
  assert (Hout : perform_calculations "eu" "retail" (Some 20000%Q) 2000%Q 3000%Q 1%Q 2000%Q
                 = Ok ?[out]) by reflexivity.
  destruct (statement_tab_matches_download (fun _ : Q => "EUR") (fun _ : Q => "%")
              (Some 1%Z) (Some 1%Z) "eu" "retail" (Some 20000%Q) 2000%Q 3000%Q 1%Q 2000%Q
              _ Hout) as (kpi1 & kpi2 & table & frame & H).
  exists kpi1, kpi2, table, frame. split; [exact Hout | exact H].
Defined.
